(** * Image ingestion workflow of the admin interface

    A shallow embedding of the image handling code of
    [src/components/ImageUpload.tsx], [src/pages/Gallery.tsx] and
    [src/pages/Activities.tsx]: the dimension computation of
    [resizeImage], the validation of [handleFileSelect], the storage
    clean-up helpers and the upload / removal handlers.

    JavaScript strings are [string]; JavaScript numbers that hold pixel
    counts, byte sizes and timestamps are [Z]; the quotient computed by
    [resizeImage] is an exact rational [Q] that the canvas truncates to
    an integer.  Remote calls (storage, database) and browser services
    are answered by a [World] record; what a handler does to the outside
    is recorded as a list of [event]s. *)

From Stdlib Require Import ZArith QArith Qround List String Ascii Bool Lia.
From Stdlib Require Import DecimalString.
Import ListNotations.

Local Open Scope string_scope.
Local Open Scope Z_scope.

(** ** JavaScript string operations used by the handlers *)

Module JsString.

(** [s.startsWith(p)] *)
Definition startsWith (p s : string) : bool := String.prefix p s.

(** [s.includes(needle)] *)
Fixpoint includes (needle s : string) : bool :=
  String.prefix needle s ||
  match s with
  | EmptyString => false
  | String _ s' => includes needle s'
  end.

(** [s.split(sep)] for a one-character separator; the result is never
    empty ([''.split('/')] is [['']]). *)
Fixpoint split (sep : ascii) (s : string) : list string :=
  match s with
  | EmptyString => [EmptyString]
  | String c s' =>
      if Ascii.eqb c sep then EmptyString :: split sep s'
      else match split sep s' with
           | h :: t => String c h :: t
           | [] => [String c EmptyString]
           end
  end.

(** [parts[parts.length - 1]] and [parts.pop()]: the last element;
    [undefined] (rendered as the empty string) on an empty array. *)
Definition lastPart (parts : list string) : string := last parts EmptyString.

(** [s.substring(n)] *)
Definition substringFrom (n : nat) (s : string) : string :=
  String.substring n (String.length s - n) s.

(** A string is truthy when it is not empty. *)
Definition truthy (s : string) : bool :=
  match s with EmptyString => false | _ => true end.

(** [a || b] on strings. *)
Definition orElse (a b : string) : string := if truthy a then a else b.

(** Decimal rendering of an integer inside a template literal. *)
Definition ofZ (z : Z) : string := NilZero.string_of_int (Z.to_int z).

(** Does [c] occur in [s]? *)
Fixpoint mem (c : ascii) (s : string) : bool :=
  match s with
  | EmptyString => false
  | String d s' => Ascii.eqb d c || mem c s'
  end.

End JsString.

(** The marker of a public URL of the [uploads] bucket. *)
Definition storageMarker : string := "/storage/v1/object/public/uploads/".

(** ** Data *)

(** A user-selected [File]: name, declared media type and byte size. *)
Record File := mkFile { file_name : string; file_type : string; file_size : Z }.

(** A [Blob] produced by [canvas.toBlob]: the canvas dimensions, the
    requested media type and the quality factor.  Where the code holds
    [Blob | null], the model holds an [option Blob] with [None] for
    [null]. *)
Record Blob := mkBlob {
  blob_width : Z; blob_height : Z; blob_type : string; blob_quality : Q }.

(** The options object passed to [storage.upload]. *)
Record FileOptions := mkFileOptions { contentType : string; upsert : bool }.

(** A thrown or returned error object; only [message] is read. *)
Record JsError := mkError { message : string }.

(** How a remote call settles: the promise resolves with an [error]
    field ([None] for [null]), rejects, or never settles (no timeout is
    applied anywhere). *)
Inductive response :=
| Resolved (error : option JsError)
| Rejected (e : JsError)
| NeverSettles.

(** Everything a handler does to the outside world, in order. *)
Inductive event :=
| StorageRemove (bucket : string) (paths : list string)
| StorageUpload (bucket path : string) (body : option Blob)
    (options : option FileOptions)
| StorageGetPublicUrl (bucket path : string)
| DbInsert (table image : string)
| DbDelete (table : string) (id : Z)
| DbSelect (table : string)
| ToastError (msg : string)
| ToastSuccess (msg : string)
| ConsoleError (label : string) (e : JsError)
| OnChange (url : string)
| CreateObjectURL (f : File)
| RevokeObjectURL (url : string).

(** The answers of the browser and of the remote platform during one
    handler run. *)
Record World := mkWorld {
  decode : File -> option (Z * Z);
    (* natural width and height once [img.onload] fires; [None] when it
       never fires (no [onerror] handler is installed) *)
  objectUrl : File -> string;                 (* URL.createObjectURL *)
  mathRandom36 : string;                      (* Math.random().toString(36) *)
  dateNow : Z;                                (* Date.now() *)
  storageRemove : string -> list string -> response;
  storageUpload : string -> string -> option Blob -> option FileOptions -> response;
  storagePublicUrl : string -> string -> string;
  dbInsert : string -> string -> response;
  dbDelete : string -> Z -> response
}.

(** ** Handlers as state-and-trace computations

    An [async] handler over component state [S] either returns, throws,
    or stays pending for ever; in each case it leaves a state and the
    events emitted so far. *)

Inductive outcome (A : Type) :=
| Returned (a : A)
| Threw (e : JsError)
| Pending.
Arguments Returned {A} a.
Arguments Threw {A} e.
Arguments Pending {A}.

Definition M (S A : Type) : Type := S -> outcome A * S * list event.

Definition ret {S A} (a : A) : M S A := fun s => (Returned a, s, []).

Definition bind {S A B} (m : M S A) (f : A -> M S B) : M S B :=
  fun s =>
    match m s with
    | (Returned a, s1, t1) => let '(o, s2, t2) := f a s1 in (o, s2, (t1 ++ t2)%list)
    | (Threw e, s1, t1) => (Threw e, s1, t1)
    | (Pending, s1, t1) => (Pending, s1, t1)
    end.

Definition throw {S A} (e : JsError) : M S A := fun s => (Threw e, s, []).

Definition emit {S} (ev : event) : M S unit := fun s => (Returned tt, s, [ev]).

Definition modify {S} (f : S -> S) : M S unit := fun s => (Returned tt, f s, []).

(** [try { m } catch (error) { h error }] *)
Definition tryCatch {S A} (m : M S A) (h : JsError -> M S A) : M S A :=
  fun s =>
    match m s with
    | (Threw e, s1, t1) => let '(o, s2, t2) := h e s1 in (o, s2, (t1 ++ t2)%list)
    | r => r
    end.

(** [try { m } finally { fin }]: [fin] runs when [m] returns or throws,
    not while it is pending. *)
Definition tryFinally {S A} (m : M S A) (fin : M S unit) : M S A :=
  fun s =>
    match m s with
    | (Pending, s1, t1) => (Pending, s1, t1)
    | (o, s1, t1) =>
        match fin s1 with
        | (Returned _, s2, t2) => (o, s2, (t1 ++ t2)%list)
        | (Threw e, s2, t2) => (Threw e, s2, (t1 ++ t2)%list)
        | (Pending, s2, t2) => (Pending, s2, (t1 ++ t2)%list)
        end
    end.

(** [await call]: the call is issued (event [ev]) and settles as [r];
    the value is the [error] field of the result. *)
Definition await {S} (ev : event) (r : response) : M S (option JsError) :=
  fun s =>
    match r with
    | Resolved err => (Returned err, s, [ev])
    | Rejected e => (Threw e, s, [ev])
    | NeverSettles => (Pending, s, [ev])
    end.

(** [if (error) throw error;] *)
Definition throwIf {S} (err : option JsError) : M S unit :=
  match err with
  | Some e => throw e
  | None => ret tt
  end.

Declare Scope js_scope.
Delimit Scope js_scope with js.
Notation "x <- m ;; k" := (bind m (fun x => k))
  (at level 61, m at next level, right associativity) : js_scope.
Notation "m ;; k" := (bind m (fun _ => k))
  (at level 61, right associativity) : js_scope.
Local Open Scope js_scope.

Definition traceOf {S A} (r : outcome A * S * list event) : list event := snd r.
Definition stateOf {S A} (r : outcome A * S * list event) : S := snd (fst r).
Definition outcomeOf {S A} (r : outcome A * S * list event) : outcome A := fst (fst r).

(** ** The canvas *)

(** Assigning a number to [canvas.width] or [canvas.height] keeps its
    integer part. *)
Definition canvasDimension (x : Q) : Z := Z.quot (Qnum x) (Zpos (Qden x)).

(** [canvas.toBlob(callback, type, quality)]: the callback gets [null]
    when the canvas has no pixels (one of its dimensions is zero), else
    the canvas encoded as [type]. *)
Definition canvasToBlob (width height : Z) (type : string) (quality : Q)
  : option Blob :=
  if (width <=? 0) || (height <=? 0) then None
  else Some (mkBlob width height type quality).
Arguments canvasToBlob : simpl never.

(** Default of the [maxSize] parameter of [resizeImage]. *)
Definition defaultMaxSize : Z := 1080.

(** A promise that never settles. *)
Definition never {S A} : M S A := fun s => (Pending, s, []).

(** ** [src/components/ImageUpload.tsx] *)

Module ImageUpload.

(** Component state: [uploading], [preview] and the value of the hidden
    file input behind [fileInputRef]. *)
Record State := mkState { uploading : bool; preview : string; fileInput : string }.

Definition setUploading (b : bool) : M State unit :=
  modify (fun s => mkState b (preview s) (fileInput s)).
Definition setPreview (p : string) : M State unit :=
  modify (fun s => mkState (uploading s) p (fileInput s)).
Definition clearFileInput : M State unit :=
  modify (fun s => mkState (uploading s) (preview s) EmptyString).

(** The numbers [width] and [height] at the end of [img.onload], from
    the natural size of the image. *)
Definition resizeDimensions (imgWidth imgHeight maxSize : Z) : Q * Q :=
  if imgWidth >? imgHeight then
    if imgWidth >? maxSize then
      let height := (inject_Z (imgHeight * maxSize) / inject_Z imgWidth)%Q in
      let width := inject_Z maxSize in
      (width, height)
    else (inject_Z imgWidth, inject_Z imgHeight)
  else
    if imgHeight >? maxSize then
      let width := (inject_Z (imgWidth * maxSize) / inject_Z imgHeight)%Q in
      let height := inject_Z maxSize in
      (width, height)
    else (inject_Z imgWidth, inject_Z imgHeight).

(** Width and height of the canvas, hence of the encoded image. *)
Definition outputSize (imgWidth imgHeight maxSize : Z) : Z * Z :=
  let '(width, height) := resizeDimensions imgWidth imgHeight maxSize in
  (canvasDimension width, canvasDimension height).

Section Handlers.

Variable w : World.
(** The props [value] and [onChange]; a call of [onChange] is the event
    [OnChange]. *)
Variable value : string.

(** The promise resolves from [img.onload] with what [canvas.toBlob]
    hands over ([blob!]), be it [null]. *)
Definition resizeImage (file : File) (maxSize : Z) : M State (option Blob) :=
  emit (CreateObjectURL file) ;;
  match decode w file with
  | None => never
  | Some (imgWidth, imgHeight) =>
      let '(width, height) := outputSize imgWidth imgHeight maxSize in
      ret (canvasToBlob width height "image/jpeg" (8 # 10))
  end.

Definition deleteOldImage (imageUrl : string) : M State unit :=
  if negb (JsString.truthy imageUrl) then ret tt
  else
    tryCatch
      (let urlParts := JsString.split "/" imageUrl in
       let fileName := JsString.lastPart urlParts in
       if JsString.includes storageMarker imageUrl then
         await (StorageRemove "uploads" [fileName])
               (storageRemove w "uploads" [fileName]) ;;
         ret tt
       else ret tt)
      (fun error => emit (ConsoleError "Error deleting old image:" error)).

(** The object key built by [uploadImage]. *)
Definition uploadKey (file : File) : string :=
  let fileExt := JsString.lastPart (JsString.split "." (file_name file)) in
  JsString.substringFrom 2 (mathRandom36 w) ++ "-" ++ JsString.ofZ (dateNow w)
    ++ "." ++ fileExt.

Definition uploadImage (file : File) : M State unit :=
  setUploading true ;;
  tryFinally
    (tryCatch
       ((if JsString.truthy value then deleteOldImage value else ret tt) ;;
        resizedBlob <- resizeImage file defaultMaxSize ;;
        let fileName := uploadKey file in
        let options := Some (mkFileOptions "image/jpeg" false) in
        uploadError <- await (StorageUpload "uploads" fileName resizedBlob options)
                             (storageUpload w "uploads" fileName resizedBlob options) ;;
        throwIf uploadError ;;
        emit (StorageGetPublicUrl "uploads" fileName) ;;
        let publicUrl := storagePublicUrl w "uploads" fileName in
        setPreview publicUrl ;;
        emit (OnChange publicUrl) ;;
        emit (ToastSuccess "Image uploaded successfully"))
       (fun error =>
          emit (ConsoleError "Upload error:" error) ;;
          emit (ToastError (JsString.orElse (message error) "Failed to upload image"))))
    (setUploading false).

(** [file] is [e.target.files?.[0]].  The call of [uploadImage] is not
    awaited; it is the last statement, so the events are the same. *)
Definition handleFileSelect (file : option File) : M State unit :=
  match file with
  | None => ret tt
  | Some file =>
      if negb (JsString.startsWith "image/" (file_type file)) then
        emit (ToastError "Please select an image file")
      else if file_size file >? 10 * 1024 * 1024 then
        emit (ToastError "File size must be less than 10MB")
      else uploadImage file
  end.

(** [preview] is read from the render the handler closes over; the
    file input behind [fileInputRef] is mounted whenever the handler can
    run. *)
Definition removeImage (render : State) : M State unit :=
  (if JsString.truthy (preview render) then deleteOldImage (preview render)
   else ret tt) ;;
  setPreview EmptyString ;;
  emit (OnChange EmptyString) ;;
  clearFileInput.

End Handlers.

End ImageUpload.

(** ** [src/pages/Gallery.tsx] *)

Module Gallery.

Record GalleryImage := mkGalleryImage {
  gi_id : Z; gi_image : string; gi_created_at : string }.

Record State := mkState {
  images : list GalleryImage;
  loading : bool;
  uploadDialogOpen : bool;
  selectedFile : option File;
  previewUrl : option string;
  uploading : bool }.

Definition setImages (l : list GalleryImage) : M State unit :=
  modify (fun s => mkState l (loading s) (uploadDialogOpen s) (selectedFile s)
                     (previewUrl s) (uploading s)).
Definition setUploadDialogOpen (b : bool) : M State unit :=
  modify (fun s => mkState (images s) (loading s) b (selectedFile s)
                     (previewUrl s) (uploading s)).
Definition setSelectedFile (f : option File) : M State unit :=
  modify (fun s => mkState (images s) (loading s) (uploadDialogOpen s) f
                     (previewUrl s) (uploading s)).
Definition setPreviewUrl (u : option string) : M State unit :=
  modify (fun s => mkState (images s) (loading s) (uploadDialogOpen s)
                     (selectedFile s) u (uploading s)).
Definition setUploading (b : bool) : M State unit :=
  modify (fun s => mkState (images s) (loading s) (uploadDialogOpen s)
                     (selectedFile s) (previewUrl s) b).

(** [newWidth] and [newHeight] at the end of [img.onload]. *)
Definition resizeDimensions (width height maxSize : Z) : Q * Q :=
  let newWidth := inject_Z width in
  let newHeight := inject_Z height in
  if width >? height then
    if width >? maxSize then
      let newWidth := inject_Z maxSize in
      let newHeight := (inject_Z (height * maxSize) / inject_Z width)%Q in
      (newWidth, newHeight)
    else (newWidth, newHeight)
  else
    if height >? maxSize then
      let newHeight := inject_Z maxSize in
      let newWidth := (inject_Z (width * maxSize) / inject_Z height)%Q in
      (newWidth, newHeight)
    else (newWidth, newHeight).

Definition outputSize (width height maxSize : Z) : Z * Z :=
  let '(newWidth, newHeight) := resizeDimensions width height maxSize in
  (canvasDimension newWidth, canvasDimension newHeight).

Section Handlers.

Variable w : World.

Definition handleFileSelect (file : option File) : M State unit :=
  match file with
  | None => ret tt
  | Some file =>
      if negb (JsString.startsWith "image/" (file_type file)) then
        emit (ToastError "Please select an image file")
      else if file_size file >? 10 * 1024 * 1024 then
        emit (ToastError "File size must be less than 10MB")
      else
        setSelectedFile (Some file) ;;
        emit (CreateObjectURL file) ;;
        setPreviewUrl (Some (objectUrl w file))
  end.

(** [previewUrl] is the value of the render the handler closes over. *)
Definition handleCancelUpload (render : State) : M State unit :=
  setSelectedFile None ;;
  setPreviewUrl None ;;
  match previewUrl render with
  | Some url => if JsString.truthy url then emit (RevokeObjectURL url) else ret tt
  | None => ret tt
  end.

Definition resizeImage (file : File) (maxSize : Z) : M State (option Blob) :=
  emit (CreateObjectURL file) ;;
  match decode w file with
  | None => never
  | Some (width, height) =>
      let '(newWidth, newHeight) := outputSize width height maxSize in
      ret (canvasToBlob newWidth newHeight "image/jpeg" (9 # 10))
  end.

(** The object key built by [handleConfirmUpload]. *)
Definition uploadKey (file : File) : string :=
  JsString.ofZ (dateNow w) ++ "-" ++ file_name file.

(** The call of [fetchImages] at the end of the success path is not
    awaited: the handler issues the select request and goes on. *)
Definition handleConfirmUpload (render : State) : M State unit :=
  match selectedFile render with
  | None => ret tt
  | Some selected =>
      setUploading true ;;
      tryFinally
        (tryCatch
           (resizedBlob <- resizeImage selected defaultMaxSize ;;
            let fileName := uploadKey selected in
            uploadError <- await (StorageUpload "uploads" fileName resizedBlob None)
                                 (storageUpload w "uploads" fileName resizedBlob None) ;;
            throwIf uploadError ;;
            emit (StorageGetPublicUrl "uploads" fileName) ;;
            let publicUrl := storagePublicUrl w "uploads" fileName in
            dbError <- await (DbInsert "gallery" publicUrl)
                             (dbInsert w "gallery" publicUrl) ;;
            throwIf dbError ;;
            emit (ToastSuccess "Image uploaded successfully") ;;
            handleCancelUpload render ;;
            setUploadDialogOpen false ;;
            emit (DbSelect "gallery"))
           (fun error =>
              emit (ConsoleError "Error uploading image:" error) ;;
              emit (ToastError "Failed to upload image")))
        (setUploading false)
  end.

Definition handleDeleteImage (render : State) (id : Z) (imageUrl : string)
  : M State unit :=
  tryCatch
    (error <- await (DbDelete "gallery" id) (dbDelete w "gallery" id) ;;
     throwIf error ;;
     (if JsString.includes storageMarker imageUrl then
        let urlParts := JsString.split "/" imageUrl in
        let fileName := JsString.lastPart urlParts in
        await (StorageRemove "uploads" [fileName])
              (storageRemove w "uploads" [fileName]) ;;
        ret tt
      else ret tt) ;;
     emit (ToastSuccess "Image deleted successfully") ;;
     setImages (filter (fun img => negb (gi_id img =? id)) (images render)))
    (fun error =>
       emit (ConsoleError "Error deleting image:" error) ;;
       emit (ToastError "Failed to delete image")).

End Handlers.

End Gallery.

(** ** [src/pages/Activities.tsx] *)

Module Activities.

Section Handlers.

Variable w : World.
Variable State : Type.

Definition deleteImageFromStorage (imageUrl : string) : M State unit :=
  if negb (JsString.truthy imageUrl) then ret tt
  else
    tryCatch
      (let urlParts := JsString.split "/" imageUrl in
       let fileName := JsString.lastPart urlParts in
       if JsString.includes storageMarker imageUrl then
         await (StorageRemove "uploads" [fileName])
               (storageRemove w "uploads" [fileName]) ;;
         ret tt
       else ret tt)
      (fun error => emit (ConsoleError "Error deleting image:" error)).

End Handlers.

End Activities.

(** ** Reading a trace *)

Definition isStorageRemove (ev : event) : bool :=
  match ev with StorageRemove _ _ => true | _ => false end.

Definition isStorageUpload (ev : event) : bool :=
  match ev with StorageUpload _ _ _ _ => true | _ => false end.

(** Calls that reach the object store. *)
Definition isStoreCall (ev : event) : bool :=
  match ev with
  | StorageRemove _ _ | StorageUpload _ _ _ _ | StorageGetPublicUrl _ _ => true
  | _ => false
  end.

(** Calls that reach the database. *)
Definition isDbCall (ev : event) : bool :=
  match ev with
  | DbInsert _ _ | DbDelete _ _ | DbSelect _ => true
  | _ => false
  end.

Definition isToastError (ev : event) : bool :=
  match ev with ToastError _ => true | _ => false end.

Definition isOnChange (ev : event) : bool :=
  match ev with OnChange _ => true | _ => false end.

Definition count (p : event -> bool) (t : list event) : nat :=
  List.length (filter p t).

(** The success notification of both upload handlers. *)
Definition uploadSucceeded (t : list event) : Prop :=
  In (ToastSuccess "Image uploaded successfully") t.

(** A remote call failed with error [e]: it resolved with an [error]
    field or it rejected. *)
Definition failedWith (r : response) (e : JsError) : Prop :=
  r = Resolved (Some e) \/ r = Rejected e.

(** The events of [handleCancelUpload]: the preview URL of the render
    is revoked when there is one. *)
Definition revoked (render : Gallery.State) : list event :=
  match Gallery.previewUrl render with
  | Some url => if JsString.truthy url then [RevokeObjectURL url] else []
  | None => []
  end.

(** ** Vocabulary of the specification *)

(** [s] contains [m] as a substring. *)
Definition contains (m s : string) : Prop := exists a b, s = a ++ m ++ b.

(** [s] ends with [suffix]. *)
Definition endsWith (suffix s : string) : bool :=
  let n := String.length s in
  let k := String.length suffix in
  (k <=? n)%nat && String.eqb (String.substring (n - k) k s) suffix.

(** A key whose suffix names the JPEG encoding. *)
Definition hasJpegSuffix (key : string) : bool :=
  endsWith ".jpg" key || endsWith ".jpeg" key ||
  endsWith ".JPG" key || endsWith ".JPEG" key.

(** ** A concrete world *)

(** Every image decodes to 2000 x 1000 and every remote call succeeds. *)
Definition sampleWorld : World :=
  {| decode := fun _ => Some (2000, 1000);
     objectUrl := fun _ => "blob:preview";
     mathRandom36 := "0.4fzyo82mvyr";
     dateNow := 1700000000000;
     storageRemove := fun _ _ => Resolved None;
     storageUpload := fun _ _ _ _ => Resolved None;
     storagePublicUrl := fun bucket key =>
       "https://project.supabase.co/storage/v1/object/public/" ++ bucket ++ "/" ++ key;
     dbInsert := fun _ _ => Resolved None;
     dbDelete := fun _ _ => Resolved None |}.

(** [sampleWorld] with other answers of the store and of the database. *)
Definition worldWith (remove upload delete : response) : World :=
  {| decode := decode sampleWorld;
     objectUrl := objectUrl sampleWorld;
     mathRandom36 := mathRandom36 sampleWorld;
     dateNow := dateNow sampleWorld;
     storageRemove := fun _ _ => remove;
     storageUpload := fun _ _ _ _ => upload;
     storagePublicUrl := storagePublicUrl sampleWorld;
     dbInsert := dbInsert sampleWorld;
     dbDelete := fun _ _ => delete |}.

Definition pngFile : File := mkFile "photo.png" "image/png" 204800.
Definition pdfFile : File := mkFile "notes.pdf" "application/pdf" 1024.
Definition hugeFile : File := mkFile "huge.jpg" "image/jpeg" 10485761.

Definition managedUrl : string :=
  "https://project.supabase.co/storage/v1/object/public/uploads/old-1.jpg".
Definition externalUrl : string := "https://example.com/pictures/old.jpg".

Definition fieldState : ImageUpload.State := ImageUpload.mkState false EmptyString EmptyString.
Definition galleryState : Gallery.State :=
  Gallery.mkState [Gallery.mkGalleryImage 7 externalUrl "2024-01-01"] false true
    (Some pngFile) (Some "blob:preview") false.


(** ** Query results *)

(** How a [select] settles: it resolves with [data] (possibly [null])
    and an [error] field, rejects, or never settles. *)
Inductive selectResponse (A : Type) :=
| SelectResolved (data : option (list A)) (error : option JsError)
| SelectRejected (e : JsError)
| SelectNeverSettles.
Arguments SelectResolved {A} data error.
Arguments SelectRejected {A} e.
Arguments SelectNeverSettles {A}.

(** [await query]: the value is the pair of the [data] and [error]
    fields of the result. *)
Definition awaitSelect {S A} (ev : event) (r : selectResponse A)
  : M S (option (list A) * option JsError) :=
  fun s =>
    match r with
    | SelectResolved data err => (Returned (data, err), s, [ev])
    | SelectRejected e => (Threw e, s, [ev])
    | SelectNeverSettles => (Pending, s, [ev])
    end.

(** [data || []] *)
Definition orEmpty {A} (data : option (list A)) : list A :=
  match data with
  | Some rows => rows
  | None => []
  end.

(** ** [fetchImages] of [src/pages/Gallery.tsx] *)

Module GalleryData.

Definition setLoading (b : bool) : M Gallery.State unit :=
  modify (fun s => Gallery.mkState (Gallery.images s) b (Gallery.uploadDialogOpen s)
                     (Gallery.selectedFile s) (Gallery.previewUrl s)
                     (Gallery.uploading s)).

(** The state of the first render. *)
Definition initialState : Gallery.State :=
  Gallery.mkState [] true false None None false.

Section Handlers.

(** The answer of the [gallery] table, ordered by the database. *)
Variable rows : selectResponse Gallery.GalleryImage.

Definition fetchImages : M Gallery.State unit :=
  tryFinally
    (tryCatch
       (result <- awaitSelect (DbSelect "gallery") rows ;;
        throwIf (snd result) ;;
        Gallery.setImages (orEmpty (fst result)))
       (fun error =>
          emit (ConsoleError "Error fetching images:" error) ;;
          emit (ToastError "Failed to fetch images")))
    (setLoading false).

End Handlers.

End GalleryData.

(** ** The page of [src/pages/Activities.tsx] *)

Module ActivitiesPage.

(** Optional fields ([?:]) are [None] when absent or [null]. *)
Record Activity := mkActivity {
  act_id : Z;
  act_title : string;
  act_description : string;
  act_category_id : option Z;
  act_date : option string;
  act_location : option string;
  act_people : option string;
  act_image_url : option string;
  act_created_at : string }.

Record Category := mkCategory { cat_id : Z; cat_title : string }.

(** The form: every field is a string. *)
Record FormData := mkFormData {
  title : string;
  description : string;
  category_id : string;
  date : string;
  location : string;
  people : string;
  image_url : string }.

(** The number that [parseInt] returns. *)
Inductive parsed :=
| NaN
| Int (z : Z).

(** The record sent to the database: [category_id] and [date] may be
    [null]. *)
Record SubmitData := mkSubmitData {
  sd_title : string;
  sd_description : string;
  sd_category_id : option parsed;
  sd_date : option string;
  sd_location : string;
  sd_people : string;
  sd_image_url : string }.

Record State := mkState {
  activities : list Activity;
  categories : list Category;
  loading : bool;
  dialogOpen : bool;
  detailDialogOpen : bool;
  selectedActivity : option Activity;
  editingActivity : option Activity;
  formData : FormData }.

(** What the page does to the outside: the shared remote events, its
    own writes, its toasts ([variant: "destructive"] or not), the
    [confirm] box and [e.preventDefault()]. *)
Inductive pageEvent :=
| Remote (e : event)
| ActivitiesInsert (rows : list SubmitData)
| ActivitiesUpdate (data : SubmitData) (id : Z)
| Toast (title description : string) (destructive : bool)
| Confirm (question : string)
| PreventDefault.

(** Handlers of the page: as [M], with the events of the page. *)
Definition P (A : Type) : Type := State -> outcome A * State * list pageEvent.

Definition pret {A} (a : A) : P A := fun s => (Returned a, s, []).

Definition pbind {A B} (m : P A) (f : A -> P B) : P B :=
  fun s =>
    match m s with
    | (Returned a, s1, t1) => let '(o, s2, t2) := f a s1 in (o, s2, (t1 ++ t2)%list)
    | (Threw e, s1, t1) => (Threw e, s1, t1)
    | (Pending, s1, t1) => (Pending, s1, t1)
    end.

Definition pthrow {A} (e : JsError) : P A := fun s => (Threw e, s, []).

Definition pemit (ev : pageEvent) : P unit := fun s => (Returned tt, s, [ev]).

Definition pmodify (f : State -> State) : P unit := fun s => (Returned tt, f s, []).

Definition ptryCatch {A} (m : P A) (h : JsError -> P A) : P A :=
  fun s =>
    match m s with
    | (Threw e, s1, t1) => let '(o, s2, t2) := h e s1 in (o, s2, (t1 ++ t2)%list)
    | r => r
    end.

Definition ptryFinally {A} (m : P A) (fin : P unit) : P A :=
  fun s =>
    match m s with
    | (Pending, s1, t1) => (Pending, s1, t1)
    | (o, s1, t1) =>
        match fin s1 with
        | (Returned _, s2, t2) => (o, s2, (t1 ++ t2)%list)
        | (Threw e, s2, t2) => (Threw e, s2, (t1 ++ t2)%list)
        | (Pending, s2, t2) => (Pending, s2, (t1 ++ t2)%list)
        end
    end.

Definition pawait (ev : pageEvent) (r : response) : P (option JsError) :=
  fun s =>
    match r with
    | Resolved err => (Returned err, s, [ev])
    | Rejected e => (Threw e, s, [ev])
    | NeverSettles => (Pending, s, [ev])
    end.

Definition pthrowIf (err : option JsError) : P unit :=
  match err with
  | Some e => pthrow e
  | None => pret tt
  end.

(** A shared helper run inside the page. *)
Definition lift {A} (m : M State A) : P A :=
  fun s => let '(o, s1, t) := m s in (o, s1, map Remote t).

Declare Scope page_scope.
Notation "x <- m ;; k" := (pbind m (fun x => k))
  (at level 61, m at next level, right associativity) : page_scope.
Notation "m ;; k" := (pbind m (fun _ => k))
  (at level 61, right associativity) : page_scope.
Local Open Scope page_scope.

Definition setActivities (l : list Activity) : P unit :=
  pmodify (fun s => mkState l (categories s) (loading s) (dialogOpen s)
                      (detailDialogOpen s) (selectedActivity s)
                      (editingActivity s) (formData s)).
Definition setCategories (l : list Category) : P unit :=
  pmodify (fun s => mkState (activities s) l (loading s) (dialogOpen s)
                      (detailDialogOpen s) (selectedActivity s)
                      (editingActivity s) (formData s)).
Definition setLoading (b : bool) : P unit :=
  pmodify (fun s => mkState (activities s) (categories s) b (dialogOpen s)
                      (detailDialogOpen s) (selectedActivity s)
                      (editingActivity s) (formData s)).
Definition setDialogOpen (b : bool) : P unit :=
  pmodify (fun s => mkState (activities s) (categories s) (loading s) b
                      (detailDialogOpen s) (selectedActivity s)
                      (editingActivity s) (formData s)).
Definition setDetailDialogOpen (b : bool) : P unit :=
  pmodify (fun s => mkState (activities s) (categories s) (loading s) (dialogOpen s)
                      b (selectedActivity s) (editingActivity s) (formData s)).
Definition setSelectedActivity (a : option Activity) : P unit :=
  pmodify (fun s => mkState (activities s) (categories s) (loading s) (dialogOpen s)
                      (detailDialogOpen s) a (editingActivity s) (formData s)).
Definition setEditingActivity (a : option Activity) : P unit :=
  pmodify (fun s => mkState (activities s) (categories s) (loading s) (dialogOpen s)
                      (detailDialogOpen s) (selectedActivity s) a (formData s)).
Definition setFormData (f : FormData) : P unit :=
  pmodify (fun s => mkState (activities s) (categories s) (loading s) (dialogOpen s)
                      (detailDialogOpen s) (selectedActivity s)
                      (editingActivity s) f).

(** [field || ''] on an optional string. *)
Definition orBlank (field : option string) : string :=
  match field with
  | Some s => JsString.orElse s EmptyString
  | None => EmptyString
  end.

Definition emptyForm : FormData :=
  mkFormData EmptyString EmptyString EmptyString EmptyString EmptyString
    EmptyString EmptyString.

(** The state of the first render. *)
Definition initialState : State :=
  mkState [] [] true false false None None emptyForm.

(** The answers of the browser and of the database to the page; the
    [World] answers the deletion of a row and the storage calls. *)
Record Backend := mkBackend {
  parseInt : string -> parsed;
  bigNumberString : Z -> string;
    (* what [toString] prints for an integer beyond 2^53, where it
       rounds the digits or uses exponent notation *)
  confirmAnswer : string -> bool;
  activitiesUpdate : SubmitData -> Z -> response;
  activitiesInsert : list SubmitData -> response;
  activitiesSelect : selectResponse Activity;
  categoriesSelect : selectResponse Category }.

Section Handlers.

Variable w : World.
Variable b : Backend.

(** [Promise.all] of the two selects: both requests are issued; the
    promise rejects as soon as one of them rejects (the rejection is
    not read by the handler) and stays pending while one is. *)
Definition selectBoth
  : P ((option (list Activity) * option JsError) *
       (option (list Category) * option JsError)) :=
  pemit (Remote (DbSelect "activities")) ;;
  pemit (Remote (DbSelect "categories")) ;;
  match activitiesSelect b, categoriesSelect b with
  | SelectRejected e, _ => pthrow e
  | _, SelectRejected e => pthrow e
  | SelectNeverSettles, _ => fun s => (Pending, s, [])
  | _, SelectNeverSettles => fun s => (Pending, s, [])
  | SelectResolved d1 e1, SelectResolved d2 e2 => pret ((d1, e1), (d2, e2))
  end.

Definition fetchData : P unit :=
  ptryFinally
    (ptryCatch
       (results <- selectBoth ;;
        let activitiesResult := fst results in
        let categoriesResult := snd results in
        pthrowIf (snd activitiesResult) ;;
        pthrowIf (snd categoriesResult) ;;
        setActivities (orEmpty (fst activitiesResult)) ;;
        setCategories (orEmpty (fst categoriesResult)))
       (fun error => pemit (Toast "Error" "Failed to fetch data" true)))
    (setLoading false).

(** A call of [fetchData] that is not awaited: the two requests are
    issued and the caller goes on. *)
Definition fetchDataDetached : P unit :=
  pemit (Remote (DbSelect "activities")) ;;
  pemit (Remote (DbSelect "categories")).

Definition resetForm : P unit :=
  setFormData emptyForm ;;
  setEditingActivity None.

(** The record built at the start of [handleSubmit]. *)
Definition submitData (form : FormData) : SubmitData :=
  mkSubmitData (title form) (description form)
    (if JsString.truthy (category_id form) then Some (parseInt b (category_id form))
     else None)
    (if JsString.truthy (date form) then Some (date form) else None)
    (location form) (people form) (image_url form).

(** [formData] and [editingActivity] are those of the render the
    handler closes over. *)
Definition handleSubmit (render : State) : P unit :=
  pemit PreventDefault ;;
  ptryCatch
    (let data := submitData (formData render) in
     match editingActivity render with
     | Some editing =>
         error <- pawait (ActivitiesUpdate data (act_id editing))
                         (activitiesUpdate b data (act_id editing)) ;;
         pthrowIf error ;;
         pemit (Toast "Success" "Activity updated successfully" false)
     | None =>
         error <- pawait (ActivitiesInsert [data]) (activitiesInsert b [data]) ;;
         pthrowIf error ;;
         pemit (Toast "Success" "Activity created successfully" false)
     end ;;
     setDialogOpen false ;;
     setEditingActivity None ;;
     resetForm ;;
     fetchDataDetached)
    (fun error =>
       pemit (Toast "Error" (JsString.orElse (message error) "An error occurred") true)).

(** [n.toString()] of an integer: every digit up to 2^53. *)
Definition numberToString (n : Z) : string :=
  if Z.abs n <=? 2 ^ 53 then JsString.ofZ n else bigNumberString b n.

Definition handleEdit (activity : Activity) : P unit :=
  setEditingActivity (Some activity) ;;
  setFormData
    (mkFormData (act_title activity) (act_description activity)
       (match act_category_id activity with
        | Some n => JsString.orElse (numberToString n) EmptyString
        | None => EmptyString
        end)
       (orBlank (act_date activity))
       (orBlank (act_location activity))
       (orBlank (act_people activity))
       (orBlank (act_image_url activity))) ;;
  setDialogOpen true.

Definition handleDelete (render : State) (id : Z) : P unit :=
  pemit (Confirm "Are you sure you want to delete this activity?") ;;
  if negb (confirmAnswer b "Are you sure you want to delete this activity?") then pret tt
  else
    ptryCatch
      (let activityToDelete :=
         find (fun act => act_id act =? id) (activities render) in
       error <- pawait (Remote (DbDelete "activities" id)) (dbDelete w "activities" id) ;;
       pthrowIf error ;;
       match activityToDelete with
       | Some act =>
           if JsString.truthy (orBlank (act_image_url act)) then
             lift (Activities.deleteImageFromStorage w State
                     (orBlank (act_image_url act)))
           else pret tt
       | None => pret tt
       end ;;
       pemit (Toast "Success" "Activity deleted successfully" false) ;;
       fetchDataDetached)
      (fun error =>
         pemit (Toast "Error"
                  (JsString.orElse (message error) "Failed to delete activity") true)).

(** [categories] is that of the render. *)
Definition getCategoryName (render : State) (categoryId : option Z) : string :=
  let category :=
    match categoryId with
    | Some n => find (fun cat => cat_id cat =? n) (categories render)
    | None => None
    end in
  match category with
  | Some cat => JsString.orElse (cat_title cat) "Uncategorized"
  | None => "Uncategorized"
  end.

Definition handleActivityClick (activity : Activity) : P unit :=
  setSelectedActivity (Some activity) ;;
  setDetailDialogOpen true.

(** The [onChange] prop handed to [ImageUpload]. *)
Definition imageChanged (render : State) (url : string) : P unit :=
  setFormData
    (mkFormData (title (formData render)) (description (formData render))
       (category_id (formData render)) (date (formData render))
       (location (formData render)) (people (formData render)) url).

End Handlers.

End ActivitiesPage.

(** ** Reading a trace of the activities page *)

Definition pageTrace {A}
  (r : outcome A * ActivitiesPage.State * list ActivitiesPage.pageEvent)
  : list ActivitiesPage.pageEvent := snd r.
Definition pageStateOf {A}
  (r : outcome A * ActivitiesPage.State * list ActivitiesPage.pageEvent)
  : ActivitiesPage.State := snd (fst r).
Definition pageOutcome {A}
  (r : outcome A * ActivitiesPage.State * list ActivitiesPage.pageEvent)
  : outcome A := fst (fst r).

Definition isWrite (ev : ActivitiesPage.pageEvent) : bool :=
  match ev with
  | ActivitiesPage.ActivitiesInsert _ | ActivitiesPage.ActivitiesUpdate _ _ => true
  | _ => false
  end.

Definition isDestructiveToast (ev : ActivitiesPage.pageEvent) : bool :=
  match ev with
  | ActivitiesPage.Toast _ _ destructive => destructive
  | _ => false
  end.

Definition isRemoteStoreCall (ev : ActivitiesPage.pageEvent) : bool :=
  match ev with
  | ActivitiesPage.Remote e => isStoreCall e
  | _ => false
  end.

(** The write that a submit from [render] issues and the answer it
    gets. *)
Definition submitWrite (b : ActivitiesPage.Backend) (render : ActivitiesPage.State)
  : ActivitiesPage.pageEvent * response :=
  let data := ActivitiesPage.submitData b (ActivitiesPage.formData render) in
  match ActivitiesPage.editingActivity render with
  | Some editing =>
      (ActivitiesPage.ActivitiesUpdate data (ActivitiesPage.act_id editing),
       ActivitiesPage.activitiesUpdate b data (ActivitiesPage.act_id editing))
  | None =>
      (ActivitiesPage.ActivitiesInsert [data],
       ActivitiesPage.activitiesInsert b [data])
  end.

(** The URL that [handleDelete] hands to the clean-up helper: the image
    of the activity found in the list of the render, or nothing. *)
Definition imageToDelete (render : ActivitiesPage.State) (id : Z) : string :=
  match find (fun act => ActivitiesPage.act_id act =? id)
          (ActivitiesPage.activities render) with
  | Some act => ActivitiesPage.orBlank (ActivitiesPage.act_image_url act)
  | None => EmptyString
  end.

(** A select failed with error [e]. *)
Definition selectFailedWith {A} (r : selectResponse A) (e : JsError) : Prop :=
  (exists data, r = SelectResolved data (Some e)) \/ r = SelectRejected e.

(** ** A concrete backend *)

(** [parseInt] on the decimal strings that [toString] produces. *)
Definition decimalParseInt (s : string) : ActivitiesPage.parsed :=
  match NilZero.int_of_string s with
  | Some i => ActivitiesPage.Int (Z.of_int i)
  | None => ActivitiesPage.NaN
  end.

Definition sampleActivity : ActivitiesPage.Activity :=
  ActivitiesPage.mkActivity 3 "Beach clean-up" "<p>Bring gloves</p>" (Some 12)
    (Some "2024-05-01") None (Some EmptyString) (Some managedUrl) "2024-04-01".

Definition sampleCategories : list ActivitiesPage.Category :=
  [ActivitiesPage.mkCategory 12 "Environment"; ActivitiesPage.mkCategory 13 EmptyString].

(** The user confirms and every call succeeds. *)
Definition sampleBackend : ActivitiesPage.Backend :=
  ActivitiesPage.mkBackend decimalParseInt JsString.ofZ (fun _ => true)
    (fun _ _ => Resolved None) (fun _ => Resolved None)
    (SelectResolved (Some [sampleActivity]) None)
    (SelectResolved (Some sampleCategories) None).

(** [sampleBackend] with other answers to the two writes. *)
Definition backendWith (update insert : response) : ActivitiesPage.Backend :=
  ActivitiesPage.mkBackend decimalParseInt JsString.ofZ (fun _ => true)
    (fun _ _ => update) (fun _ => insert)
    (SelectResolved (Some [sampleActivity]) None)
    (SelectResolved (Some sampleCategories) None).

Definition pageState : ActivitiesPage.State :=
  ActivitiesPage.mkState [sampleActivity] sampleCategories false false false
    None None ActivitiesPage.emptyForm.

(** * Properties *)

(** ** Concrete runs *)

Example split_url :
  JsString.split "/" "https://h/uploads/a.jpg"
  = ["https:"; EmptyString; "h"; "uploads"; "a.jpg"].
Proof. reflexivity. Qed.

Example extension_of_name :
  JsString.lastPart (JsString.split "." "holiday.photo.PNG") = "PNG".
Proof. reflexivity. Qed.

Example resize_square_unchanged :
  ImageUpload.outputSize 500 500 defaultMaxSize = (500, 500).
Proof. reflexivity. Qed.

Example resize_portrait :
  Gallery.outputSize 1000 3000 defaultMaxSize = (360, 1080).
Proof. reflexivity. Qed.

Example resize_rounds_down :
  ImageUpload.resizeDimensions 2000 333 defaultMaxSize = (inject_Z 1080, 359640 # 2000)
  /\ ImageUpload.outputSize 2000 333 defaultMaxSize = (1080, 179).
Proof. split; reflexivity. Qed.

Example field_upload_trace :
  traceOf (ImageUpload.uploadImage sampleWorld managedUrl pngFile fieldState) =
    [StorageRemove "uploads" ["old-1.jpg"];
     CreateObjectURL pngFile;
     StorageUpload "uploads" "4fzyo82mvyr-1700000000000.png"
       (Some (mkBlob 1080 540 "image/jpeg" (8 # 10)))
       (Some (mkFileOptions "image/jpeg" false));
     StorageGetPublicUrl "uploads" "4fzyo82mvyr-1700000000000.png";
     OnChange "https://project.supabase.co/storage/v1/object/public/uploads/4fzyo82mvyr-1700000000000.png";
     ToastSuccess "Image uploaded successfully"].
Proof. reflexivity. Qed.

Example gallery_upload_trace :
  traceOf (Gallery.handleConfirmUpload sampleWorld galleryState galleryState) =
    [CreateObjectURL pngFile;
     StorageUpload "uploads" "1700000000000-photo.png"
       (Some (mkBlob 1080 540 "image/jpeg" (9 # 10))) None;
     StorageGetPublicUrl "uploads" "1700000000000-photo.png";
     DbInsert "gallery"
       "https://project.supabase.co/storage/v1/object/public/uploads/1700000000000-photo.png";
     ToastSuccess "Image uploaded successfully";
     RevokeObjectURL "blob:preview";
     DbSelect "gallery"].
Proof. reflexivity. Qed.

(** A 1 x 5000 image: the canvas is 0 x 1080, [canvas.toBlob] hands
    over [null] and [null] is what the run uploads. *)
Example narrow_image_uploads_null :
  let w := mkWorld (fun _ => Some (1, 5000)) (objectUrl sampleWorld)
             (mathRandom36 sampleWorld) (dateNow sampleWorld)
             (storageRemove sampleWorld) (storageUpload sampleWorld)
             (storagePublicUrl sampleWorld) (dbInsert sampleWorld)
             (dbDelete sampleWorld) in
  ImageUpload.outputSize 1 5000 defaultMaxSize = (0, 1080) /\
  filter isStorageUpload
    (traceOf (ImageUpload.uploadImage w EmptyString pngFile fieldState))
  = [StorageUpload "uploads" "4fzyo82mvyr-1700000000000.png" None
       (Some (mkFileOptions "image/jpeg" false))].
Proof. split; reflexivity. Qed.

(** ** The canvas keeps the integer quotient *)

Lemma canvasDimension_inject (a : Z) : canvasDimension (inject_Z a) = a.
Proof. unfold canvasDimension; simpl. apply Z.quot_1_r. Qed.

Lemma canvasDimension_div (a b : Z) :
  0 < b -> canvasDimension (inject_Z a / inject_Z b) = Z.quot a b.
Proof.
  intros Hb. destruct b as [|p|p]; try lia.
  unfold canvasDimension, Qdiv, Qinv, Qmult, inject_Z; simpl.
  now rewrite Z.mul_1_r.
Qed.

Lemma quot_scaled_bounds (a m b : Z) :
  0 <= a -> 0 <= m -> 0 < b ->
  Z.quot (a * m) b * b <= a * m < (Z.quot (a * m) b + 1) * b.
Proof.
  intros Ha Hm Hb.
  rewrite Z.quot_div_nonneg by nia.
  pose proof (Z.mul_div_le (a * m) b Hb).
  pose proof (Z.mul_succ_div_gt (a * m) b Hb).
  nia.
Qed.

Lemma quot_scaled_le (a m b : Z) :
  0 <= a <= b -> 0 <= m -> 0 < b -> 0 <= Z.quot (a * m) b <= m.
Proof.
  intros Ha Hm Hb.
  rewrite Z.quot_div_nonneg by nia.
  split.
  - apply Z.div_pos; nia.
  - apply Z.div_le_upper_bound; nia.
Qed.

Lemma ImageUpload_outputSize_eq (iw ih m : Z) :
  0 < iw -> 0 < ih ->
  ImageUpload.outputSize iw ih m =
    if iw >? ih then
      if iw >? m then (m, Z.quot (ih * m) iw) else (iw, ih)
    else
      if ih >? m then (Z.quot (iw * m) ih, m) else (iw, ih).
Proof.
  intros Hw Hh. unfold ImageUpload.outputSize, ImageUpload.resizeDimensions.
  destruct (iw >? ih), (iw >? m), (ih >? m);
    rewrite ?canvasDimension_inject, ?canvasDimension_div by lia; reflexivity.
Qed.

Lemma Gallery_outputSize_eq (iw ih m : Z) :
  Gallery.outputSize iw ih m = ImageUpload.outputSize iw ih m.
Proof.
  unfold Gallery.outputSize, Gallery.resizeDimensions,
    ImageUpload.outputSize, ImageUpload.resizeDimensions.
  destruct (iw >? ih), (iw >? m), (ih >? m); reflexivity.
Qed.

(** What [resizeImage] resolves with once the image has loaded: the
    canvas of size [outputSize], as [canvas.toBlob] hands it over. *)
Lemma ImageUpload_resizeImage_run (w : World) (f : File) (m iw ih : Z)
      (s : ImageUpload.State) :
  decode w f = Some (iw, ih) ->
  ImageUpload.resizeImage w f m s =
    (Returned (canvasToBlob (fst (ImageUpload.outputSize iw ih m))
                 (snd (ImageUpload.outputSize iw ih m)) "image/jpeg" (8 # 10)),
     s, [CreateObjectURL f]).
Proof.
  intros Hd. unfold ImageUpload.resizeImage, bind, emit. rewrite Hd.
  destruct (ImageUpload.outputSize iw ih m) as [ow oh]. reflexivity.
Qed.

Lemma Gallery_resizeImage_run (w : World) (f : File) (m iw ih : Z)
      (s : Gallery.State) :
  decode w f = Some (iw, ih) ->
  Gallery.resizeImage w f m s =
    (Returned (canvasToBlob (fst (Gallery.outputSize iw ih m))
                 (snd (Gallery.outputSize iw ih m)) "image/jpeg" (9 # 10)),
     s, [CreateObjectURL f]).
Proof.
  intros Hd. unfold Gallery.resizeImage, bind, emit. rewrite Hd.
  destruct (Gallery.outputSize iw ih m) as [ow oh]. reflexivity.
Qed.

(** A blob handed over by the canvas has the size of the canvas. *)
Lemma canvasToBlob_size (width height : Z) (type : string) (quality : Q) (b : Blob) :
  canvasToBlob width height type quality = Some b ->
  blob_width b = width /\ blob_height b = height /\ blob_type b = type.
Proof.
  unfold canvasToBlob. destruct ((width <=? 0) || (height <=? 0)); [discriminate|].
  intros H. injection H as <-. repeat split.
Qed.

Lemma canvasToBlob_pixels (width height : Z) (type : string) (quality : Q) :
  0 < width -> 0 < height ->
  canvasToBlob width height type quality = Some (mkBlob width height type quality).
Proof.
  intros Hw Hh. unfold canvasToBlob.
  assert (H : (width <=? 0) || (height <=? 0) = false)
    by (apply orb_false_iff; split; lia).
  now rewrite H.
Qed.

(** C1. For a file whose image loads with natural size [iw] x [ih] and
    a parameter [maxSize], both [resizeImage] functions resolve with
    what the canvas of integer size [(ow, oh)] hands over, and a blob
    handed over has that width and height.  When both edges are at most
    [maxSize] the size is unchanged.  When the longer edge exceeds
    [maxSize] (sizes positive), the longer output edge is exactly
    [maxSize] and the other edge is the exact scaled value rounded down,
    so it is less than one pixel away from the exact aspect ratio.  With
    the default 1080, a 2000 x 1000 image gives 1080 x 540. *)
Theorem resize_output_dimensions
        (w : World) (f : File) (iw ih maxSize : Z)
        (s : ImageUpload.State) (g : Gallery.State) :
  let ow := fst (ImageUpload.outputSize iw ih maxSize) in
  let oh := snd (ImageUpload.outputSize iw ih maxSize) in
  decode w f = Some (iw, ih) ->
  ImageUpload.resizeImage w f maxSize s =
    (Returned (canvasToBlob ow oh "image/jpeg" (8 # 10)), s, [CreateObjectURL f]) /\
  Gallery.resizeImage w f maxSize g =
    (Returned (canvasToBlob ow oh "image/jpeg" (9 # 10)), g, [CreateObjectURL f]) /\
  (forall b,
     outcomeOf (ImageUpload.resizeImage w f maxSize s) = Returned (Some b) \/
     outcomeOf (Gallery.resizeImage w f maxSize g) = Returned (Some b) ->
     blob_width b = ow /\ blob_height b = oh /\ blob_type b = "image/jpeg") /\
  Gallery.outputSize iw ih maxSize = ImageUpload.outputSize iw ih maxSize /\
  (iw <= maxSize -> ih <= maxSize -> (ow, oh) = (iw, ih)) /\
  (0 < iw -> 0 < ih -> 0 < maxSize -> maxSize < Z.max iw ih ->
   Z.max ow oh = maxSize /\
   (ih < iw -> ow = maxSize /\ oh * iw <= ih * maxSize < (oh + 1) * iw) /\
   (iw <= ih -> oh = maxSize /\ ow * ih <= iw * maxSize < (ow + 1) * ih)) /\
  (iw = 2000 -> ih = 1000 -> maxSize = defaultMaxSize ->
   canvasToBlob ow oh "image/jpeg" (8 # 10)
   = Some (mkBlob 1080 540 "image/jpeg" (8 # 10))).
Proof.
  cbv zeta. intros Hd.
  split; [apply ImageUpload_resizeImage_run; exact Hd|].
  split; [rewrite <- Gallery_outputSize_eq; apply Gallery_resizeImage_run; exact Hd|].
  split.
  { intros b [Hb | Hb]; revert Hb.
    - rewrite (ImageUpload_resizeImage_run w f maxSize iw ih s Hd).
      unfold outcomeOf; cbn [fst]. intros Hb. injection Hb as Hb.
      now apply canvasToBlob_size in Hb.
    - rewrite (Gallery_resizeImage_run w f maxSize iw ih g Hd), Gallery_outputSize_eq.
      unfold outcomeOf; cbn [fst]. intros Hb. injection Hb as Hb.
      now apply canvasToBlob_size in Hb. }
  split; [apply Gallery_outputSize_eq|].
  split; [|split].
  - intros Hw Hh.
    unfold ImageUpload.outputSize, ImageUpload.resizeDimensions.
    destruct (iw >? ih) eqn:E1, (iw >? maxSize) eqn:E2, (ih >? maxSize) eqn:E3;
      try lia; now rewrite !canvasDimension_inject.
  - intros Hw Hh Hm Hlong.
    rewrite ImageUpload_outputSize_eq by assumption.
    destruct (iw >? ih) eqn:E1.
    + assert (Hgt : (iw >? maxSize) = true) by lia. rewrite Hgt. simpl.
      pose proof (quot_scaled_le ih maxSize iw ltac:(lia) ltac:(lia) Hw).
      pose proof (quot_scaled_bounds ih maxSize iw ltac:(lia) ltac:(lia) Hw).
      repeat split; try lia.
    + assert (Hgt : (ih >? maxSize) = true) by lia. rewrite Hgt. simpl.
      pose proof (quot_scaled_le iw maxSize ih ltac:(lia) ltac:(lia) Hh).
      pose proof (quot_scaled_bounds iw maxSize ih ltac:(lia) ltac:(lia) Hh).
      repeat split; try lia.
  - intros -> -> ->. reflexivity.
Qed.

Lemma resize_output_dimensions_witness :
  ImageUpload.resizeImage sampleWorld pngFile defaultMaxSize fieldState =
    (Returned (Some (mkBlob 1080 540 "image/jpeg" (8 # 10))), fieldState,
     [CreateObjectURL pngFile]) /\
  Gallery.resizeImage sampleWorld pngFile defaultMaxSize galleryState =
    (Returned (Some (mkBlob 1080 540 "image/jpeg" (9 # 10))), galleryState,
     [CreateObjectURL pngFile]) /\
  Z.max (fst (ImageUpload.outputSize 2000 1000 1080))
        (snd (ImageUpload.outputSize 2000 1000 1080)) = 1080.
Proof.
  pose proof (resize_output_dimensions sampleWorld pngFile 2000 1000 defaultMaxSize
                fieldState galleryState) as H.
  cbv zeta in H. destruct (H eq_refl) as [Hfield [Hgallery [_ [_ [_ [Hlong _]]]]]].
  split; [exact Hfield | split; [exact Hgallery|]].
  apply Hlong; reflexivity.
Defined.

(** ** Strings *)

Lemma prefix_spec (p s : string) :
  String.prefix p s = true <-> exists b, s = p ++ b.
Proof.
  revert s. induction p as [|c p IH]; intros s.
  - split; [intros _; now exists s | intros _; now destruct s].
  - destruct s as [|d s]; simpl.
    + split; [discriminate | intros [b Hb]; discriminate].
    + destruct (ascii_dec c d) as [->|Hne].
      * rewrite IH. split; intros [b Hb]; exists b; [now rewrite Hb | now inversion Hb].
      * split; [discriminate | intros [b Hb]; inversion Hb; congruence].
Qed.

Lemma includes_spec (m s : string) :
  JsString.includes m s = true <-> contains m s.
Proof.
  unfold contains. induction s as [|c s IH]; cbn [JsString.includes].
  - rewrite orb_false_r, prefix_spec. split.
    + intros [b Hb]. now exists EmptyString, b.
    + intros [a [b Hab]]. destruct a; simpl in Hab; [now exists b | discriminate].
  - rewrite orb_true_iff, prefix_spec, IH. split.
    + intros [[b Hb] | [a [b Hab]]].
      * now exists EmptyString, b.
      * exists (String c a), b. simpl. now rewrite Hab.
    + intros [a [b Hab]]. destruct a as [|d a]; simpl in Hab.
      * left. now exists b.
      * right. inversion Hab. now exists a, b.
Qed.

Lemma split_nonempty (sep : ascii) (s : string) : JsString.split sep s <> [].
Proof.
  destruct s as [|c s]; simpl; [discriminate|].
  destruct (Ascii.eqb c sep); [discriminate|].
  destruct (JsString.split sep s); discriminate.
Qed.

Lemma mem_append (c : ascii) (a b : string) :
  JsString.mem c (a ++ b) = JsString.mem c a || JsString.mem c b.
Proof.
  induction a as [|d a IH]; simpl; [reflexivity|].
  now rewrite IH, orb_assoc.
Qed.

(** The last part of a split contains no separator. *)
Lemma lastPart_split_no_sep (sep : ascii) (s : string) :
  JsString.mem sep (JsString.lastPart (JsString.split sep s)) = false.
Proof.
  unfold JsString.lastPart. induction s as [|c s IH]; simpl; [reflexivity|].
  pose proof (split_nonempty sep s) as Hne.
  destruct (Ascii.eqb c sep) eqn:E.
  - destruct (JsString.split sep s) as [|h t]; [contradiction | exact IH].
  - destruct (JsString.split sep s) as [|h t]; [contradiction|].
    destruct t as [|h' t'].
    + simpl in *. now rewrite E, IH.
    + exact IH.
Qed.

(** Without a separator the string is its own last part. *)
Lemma lastPart_split_whole (sep : ascii) (s : string) :
  JsString.mem sep s = false -> JsString.split sep s = [s].
Proof.
  induction s as [|c s IH]; simpl; [reflexivity|].
  intros H. apply orb_false_iff in H as [Hc Hs].
  rewrite Hc, (IH Hs). reflexivity.
Qed.

Lemma split_single_no_sep (sep : ascii) (s h : string) :
  JsString.split sep s = [h] -> JsString.mem sep s = false.
Proof.
  revert h. induction s as [|c s IH]; intros h; simpl; [reflexivity|].
  pose proof (split_nonempty sep s) as Hne.
  destruct (Ascii.eqb c sep).
  - intros H. inversion H. contradiction.
  - destruct (JsString.split sep s) as [|h' t']; [contradiction|].
    intros H. inversion H; subst. simpl. now apply (IH h').
Qed.

(** With a separator, the last part is what follows its last
    occurrence. *)
Lemma lastPart_split_after_last (sep : ascii) (s : string) :
  JsString.mem sep s = true ->
  exists pre, s = pre ++ String sep (JsString.lastPart (JsString.split sep s)).
Proof.
  unfold JsString.lastPart. induction s as [|c s IH]; simpl; [discriminate|].
  intros H. pose proof (split_nonempty sep s) as Hne.
  destruct (Ascii.eqb c sep) eqn:E.
  - apply Ascii.eqb_eq in E. subst c.
    destruct (JsString.mem sep s) eqn:Hs.
    + destruct (IH eq_refl) as [pre Hpre].
      exists (String sep pre). simpl. f_equal.
      destruct (JsString.split sep s); [contradiction | exact Hpre].
    + rewrite (lastPart_split_whole sep s Hs). now exists EmptyString.
  - simpl in H. destruct (IH H) as [pre Hpre].
    exists (String c pre). simpl. f_equal.
    destruct (JsString.split sep s) as [|h t] eqn:Hsp; [contradiction|].
    destruct t as [|h' t']; [|exact Hpre].
    apply split_single_no_sep in Hsp. congruence.
Qed.

Lemma marker_has_slash (url : string) :
  contains storageMarker url -> JsString.mem "/" url = true.
Proof.
  intros [a [b ->]]. rewrite !mem_append.
  replace (JsString.mem "/" storageMarker) with true by reflexivity.
  now rewrite orb_true_r.
Qed.

Lemma includes_marker_truthy (url : string) :
  JsString.includes storageMarker url = true -> JsString.truthy url = true.
Proof. destruct url; [discriminate | reflexivity]. Qed.

(** The object key of a store-managed URL: what follows the last
    slash. *)
Lemma key_after_last_slash (url : string) :
  contains storageMarker url ->
  exists pre,
    url = pre ++ "/" ++ JsString.lastPart (JsString.split "/" url) /\
    JsString.mem "/" (JsString.lastPart (JsString.split "/" url)) = false.
Proof.
  intros Hc. destruct (lastPart_split_after_last "/" url (marker_has_slash url Hc))
    as [pre Hpre].
  exists pre. split; [exact Hpre | apply lastPart_split_no_sep].
Qed.

(** ** Runs of the clean-up helpers *)

Ltac run_monad :=
  unfold bind, tryCatch, tryFinally, await, throwIf, emit, modify, ret, throw, never;
  simpl.

Lemma deleteOldImage_run (w : World) (url : string) (s : ImageUpload.State) :
  ImageUpload.deleteOldImage w url s =
    if JsString.includes storageMarker url then
      let key := JsString.lastPart (JsString.split "/" url) in
      match storageRemove w "uploads" [key] with
      | Resolved _ => (Returned tt, s, [StorageRemove "uploads" [key]])
      | Rejected e =>
          (Returned tt, s,
           [StorageRemove "uploads" [key]; ConsoleError "Error deleting old image:" e])
      | NeverSettles => (Pending, s, [StorageRemove "uploads" [key]])
      end
    else (Returned tt, s, []).
Proof.
  unfold ImageUpload.deleteOldImage.
  destruct (JsString.includes storageMarker url) eqn:Hinc.
  - rewrite (includes_marker_truthy url Hinc). run_monad.
    destruct (storageRemove w "uploads" _); reflexivity.
  - destruct (JsString.truthy url); reflexivity.
Qed.

Lemma deleteImageFromStorage_run (w : World) (S : Type) (url : string) (s : S) :
  Activities.deleteImageFromStorage w S url s =
    if JsString.includes storageMarker url then
      let key := JsString.lastPart (JsString.split "/" url) in
      match storageRemove w "uploads" [key] with
      | Resolved _ => (Returned tt, s, [StorageRemove "uploads" [key]])
      | Rejected e =>
          (Returned tt, s,
           [StorageRemove "uploads" [key]; ConsoleError "Error deleting image:" e])
      | NeverSettles => (Pending, s, [StorageRemove "uploads" [key]])
      end
    else (Returned tt, s, []).
Proof.
  unfold Activities.deleteImageFromStorage.
  destruct (JsString.includes storageMarker url) eqn:Hinc.
  - rewrite (includes_marker_truthy url Hinc). run_monad.
    destruct (storageRemove w "uploads" _); reflexivity.
  - destruct (JsString.truthy url); reflexivity.
Qed.

(** C4. Both clean-up helpers ([deleteOldImage] of the image field and
    [deleteImageFromStorage] of the activities page) make the same store
    calls.  A URL that does not contain the storage path marker causes
    no store call at all; a URL that contains it causes exactly one
    remove on the [uploads] bucket, for the single key that follows the
    last slash of the URL; any remove in the trace implies the marker. *)
Theorem store_delete_guarded_by_marker
        (w : World) (S : Type) (url : string) (s : ImageUpload.State) (s' : S) :
  let t := traceOf (ImageUpload.deleteOldImage w url s) in
  let t' := traceOf (Activities.deleteImageFromStorage w S url s') in
  filter isStoreCall t' = filter isStoreCall t /\
  (~ contains storageMarker url -> filter isStoreCall t = []) /\
  (contains storageMarker url ->
   exists pre key,
     url = pre ++ "/" ++ key /\ JsString.mem "/" key = false /\
     filter isStoreCall t = [StorageRemove "uploads" [key]]) /\
  (forall bucket paths,
     In (StorageRemove bucket paths) t -> contains storageMarker url).
Proof.
  cbv zeta. rewrite deleteOldImage_run, deleteImageFromStorage_run.
  destruct (JsString.includes storageMarker url) eqn:Hinc.
  - assert (Hc : contains storageMarker url) by now apply includes_spec.
    split; [|split; [|split]].
    + cbv zeta. destruct (storageRemove w "uploads" _); reflexivity.
    + intros Hn. contradiction.
    + intros _. destruct (key_after_last_slash url Hc) as [pre [Hurl Hkey]].
      exists pre, (JsString.lastPart (JsString.split "/" url)).
      repeat split; try assumption.
      cbv zeta. destruct (storageRemove w "uploads" _); reflexivity.
    + intros; assumption.
  - split; [reflexivity | split; [reflexivity | split]].
    + intros Hc. apply includes_spec in Hc. congruence.
    + intros bucket paths [].
Qed.

Lemma store_delete_guarded_by_marker_witness :
  filter isStoreCall
    (traceOf (ImageUpload.deleteOldImage sampleWorld externalUrl fieldState)) = [] /\
  exists pre key,
    managedUrl = pre ++ "/" ++ key /\ JsString.mem "/" key = false /\
    filter isStoreCall
      (traceOf (ImageUpload.deleteOldImage sampleWorld managedUrl fieldState))
    = [StorageRemove "uploads" [key]].
Proof.
  split.
  - apply (proj1 (proj2 (store_delete_guarded_by_marker
                           sampleWorld unit externalUrl fieldState tt))).
    intros Hc. apply includes_spec in Hc. vm_compute in Hc. discriminate Hc.
  - apply (proj1 (proj2 (proj2 (store_delete_guarded_by_marker
                                  sampleWorld unit managedUrl fieldState tt)))).
    exists "https://project.supabase.co", "old-1.jpg". reflexivity.
Defined.

(** ** Validation *)

(** C2. A selected file whose media type does not start with [image/],
    or whose size exceeds 10,485,760 bytes, makes both [handleFileSelect]
    handlers emit one error toast and nothing else: the handler returns,
    the component state is unchanged (in the gallery the file is not
    kept as the selected file, so a later confirm cannot upload it), and
    the trace holds no store call and no database call. *)
Theorem rejected_file_reaches_no_store
        (w : World) (value : string) (f : File)
        (s : ImageUpload.State) (g : Gallery.State) :
  JsString.startsWith "image/" (file_type f) = false \/ 10485760 < file_size f ->
  let r := ImageUpload.handleFileSelect w value (Some f) s in
  let r' := Gallery.handleFileSelect w (Some f) g in
  (exists msg, traceOf r = [ToastError msg] /\ traceOf r' = [ToastError msg]) /\
  outcomeOf r = Returned tt /\ stateOf r = s /\
  outcomeOf r' = Returned tt /\ stateOf r' = g /\
  filter isStoreCall (traceOf r) = [] /\ filter isDbCall (traceOf r) = [] /\
  filter isStoreCall (traceOf r') = [] /\ filter isDbCall (traceOf r') = [].
Proof.
  intros Hrej. cbv zeta.
  unfold ImageUpload.handleFileSelect, Gallery.handleFileSelect.
  destruct (JsString.startsWith "image/" (file_type f)) eqn:Hty; cbn [negb].
  - destruct Hrej as [Hrej | Hsize]; [discriminate|].
    assert (Hgt : (file_size f >? 10 * 1024 * 1024) = true) by lia.
    rewrite Hgt. unfold emit, traceOf, outcomeOf, stateOf; simpl.
    repeat split; try reflexivity. eexists; split; reflexivity.
  - unfold emit, traceOf, outcomeOf, stateOf; simpl.
    repeat split; try reflexivity. eexists; split; reflexivity.
Qed.

Lemma rejected_file_reaches_no_store_witness :
  filter isStoreCall
    (traceOf (ImageUpload.handleFileSelect sampleWorld managedUrl (Some pdfFile) fieldState))
  = [] /\
  filter isStoreCall
    (traceOf (Gallery.handleFileSelect sampleWorld (Some hugeFile) galleryState))
  = [].
Proof.
  split.
  - apply (rejected_file_reaches_no_store sampleWorld managedUrl pdfFile
             fieldState galleryState).
    left. reflexivity.
  - apply (rejected_file_reaches_no_store sampleWorld managedUrl hugeFile
             fieldState galleryState).
    right. simpl. lia.
Defined.

(** ** Runs of the upload and removal handlers *)

Ltac world_case w :=
  match goal with
  | |- context [decode w ?f] =>
      destruct (decode w f) as [[? ?]|] eqn:?
  | |- context [storageRemove w ?b ?p] =>
      destruct (storageRemove w b p) as [[?|]|?|] eqn:?
  | |- context [storageUpload w ?b ?k ?body ?o] =>
      destruct (storageUpload w b k body o) as [[?|]|?|] eqn:?
  | |- context [dbInsert w ?t ?u] =>
      destruct (dbInsert w t u) as [[?|]|?|] eqn:?
  | |- context [dbDelete w ?t ?i] =>
      destruct (dbDelete w t i) as [[?|]|?|] eqn:?
  end.

Ltac run_cases w := run_monad; repeat (world_case w; simpl).

Lemma deleteOldImage_guard (w : World) (value : string) :
  (if JsString.truthy value then ImageUpload.deleteOldImage w value else ret tt)
  = ImageUpload.deleteOldImage w value.
Proof.
  unfold ImageUpload.deleteOldImage. destruct (JsString.truthy value); reflexivity.
Qed.

(** [uploadImage], settled case by case on the answers of the world. *)
Lemma uploadImage_run (w : World) (value : string) (f : File) (s : ImageUpload.State) :
  let busy := ImageUpload.mkState true (ImageUpload.preview s) (ImageUpload.fileInput s) in
  let idle := ImageUpload.mkState false (ImageUpload.preview s) (ImageUpload.fileInput s) in
  let cleanup := ImageUpload.deleteOldImage w value busy in
  let pre := (traceOf cleanup ++ [CreateObjectURL f])%list in
  let key := ImageUpload.uploadKey w f in
  let options := Some (mkFileOptions "image/jpeg" false) in
  ImageUpload.uploadImage w value f s =
    match outcomeOf cleanup with
    | Pending => (Pending, busy, traceOf cleanup)
    | _ =>
        match decode w f with
        | None => (Pending, busy, pre)
        | Some (iw, ih) =>
            let size := ImageUpload.outputSize iw ih defaultMaxSize in
            let body := canvasToBlob (fst size) (snd size) "image/jpeg" (8 # 10) in
            let up := StorageUpload "uploads" key body options in
            let failed e :=
              (Returned tt, idle,
               (pre ++ [up; ConsoleError "Upload error:" e;
                        ToastError (JsString.orElse (message e)
                                      "Failed to upload image")])%list) in
            match storageUpload w "uploads" key body options with
            | Resolved None =>
                let url := storagePublicUrl w "uploads" key in
                (Returned tt,
                 ImageUpload.mkState false url (ImageUpload.fileInput s),
                 (pre ++ [up; StorageGetPublicUrl "uploads" key; OnChange url;
                          ToastSuccess "Image uploaded successfully"])%list)
            | Resolved (Some e) => failed e
            | Rejected e => failed e
            | NeverSettles => (Pending, busy, (pre ++ [up])%list)
            end
        end
    end.
Proof.
  cbv zeta. unfold ImageUpload.uploadImage. rewrite deleteOldImage_guard.
  unfold ImageUpload.setUploading, ImageUpload.setPreview, ImageUpload.resizeImage.
  unfold bind at 1. unfold modify at 1. unfold tryFinally, tryCatch.
  unfold bind at 1. rewrite deleteOldImage_run.
  destruct (JsString.includes storageMarker value); cbv zeta.
  - destruct (storageRemove w "uploads" _) as [[?|]|?|]; simpl;
      try reflexivity;
      (destruct (decode w f) as [[iw ih]|]; [|reflexivity]);
      (destruct (ImageUpload.outputSize iw ih defaultMaxSize) as [ow oh]);
      run_cases w; reflexivity.
  - simpl. destruct (decode w f) as [[iw ih]|]; [|reflexivity].
    destruct (ImageUpload.outputSize iw ih defaultMaxSize) as [ow oh].
    run_cases w; reflexivity.
Qed.

(** [removeImage]: the clean-up of the previewed URL, then the link is
    cleared. *)
Lemma removeImage_run (w : World) (render s : ImageUpload.State) :
  let cleanup := ImageUpload.deleteOldImage w (ImageUpload.preview render) s in
  ImageUpload.removeImage w render s =
    match outcomeOf cleanup with
    | Pending => (Pending, s, traceOf cleanup)
    | _ =>
        (Returned tt, ImageUpload.mkState (ImageUpload.uploading s) EmptyString EmptyString,
         (traceOf cleanup ++ [OnChange EmptyString])%list)
    end.
Proof.
  cbv zeta. unfold ImageUpload.removeImage. rewrite deleteOldImage_guard.
  unfold ImageUpload.setPreview, ImageUpload.clearFileInput.
  unfold bind at 1. rewrite deleteOldImage_run.
  destruct (JsString.includes storageMarker (ImageUpload.preview render)); cbv zeta.
  - destruct (storageRemove w "uploads" _) as [[?|]|?|]; reflexivity.
  - reflexivity.
Qed.

(** [handleConfirmUpload] with a selected file, case by case. *)
Lemma handleConfirmUpload_run (w : World) (render s : Gallery.State) (f : File) :
  Gallery.selectedFile render = Some f ->
  let busy := Gallery.mkState (Gallery.images s) (Gallery.loading s)
                (Gallery.uploadDialogOpen s) (Gallery.selectedFile s)
                (Gallery.previewUrl s) true in
  let idle := Gallery.mkState (Gallery.images s) (Gallery.loading s)
                (Gallery.uploadDialogOpen s) (Gallery.selectedFile s)
                (Gallery.previewUrl s) false in
  let key := Gallery.uploadKey w f in
  let url := storagePublicUrl w "uploads" key in
  let failed t e :=
    (Returned tt, idle,
     (t ++ [ConsoleError "Error uploading image:" e;
            ToastError "Failed to upload image"])%list) in
  Gallery.handleConfirmUpload w render s =
    match decode w f with
    | None => (Pending, busy, [CreateObjectURL f])
    | Some (iw, ih) =>
        let size := Gallery.outputSize iw ih defaultMaxSize in
        let body := canvasToBlob (fst size) (snd size) "image/jpeg" (9 # 10) in
        let up := StorageUpload "uploads" key body None in
        let linked := [CreateObjectURL f; up; StorageGetPublicUrl "uploads" key;
                       DbInsert "gallery" url] in
        match storageUpload w "uploads" key body None with
        | Resolved None =>
            match dbInsert w "gallery" url with
            | Resolved None =>
                (Returned tt,
                 Gallery.mkState (Gallery.images s) (Gallery.loading s) false
                   None None false,
                 (linked ++ [ToastSuccess "Image uploaded successfully"]
                    ++ revoked render ++ [DbSelect "gallery"])%list)
            | Resolved (Some e) => failed linked e
            | Rejected e => failed linked e
            | NeverSettles => (Pending, busy, linked)
            end
        | Resolved (Some e) => failed [CreateObjectURL f; up] e
        | Rejected e => failed [CreateObjectURL f; up] e
        | NeverSettles => (Pending, busy, [CreateObjectURL f; up])
        end
    end.
Proof.
  intros Hsel. cbv zeta. unfold Gallery.handleConfirmUpload. rewrite Hsel.
  unfold Gallery.setUploading, Gallery.resizeImage, Gallery.handleCancelUpload,
    Gallery.setSelectedFile, Gallery.setPreviewUrl, Gallery.setUploadDialogOpen,
    revoked.
  destruct (decode w f) as [[iw ih]|]; [|reflexivity].
  destruct (Gallery.outputSize iw ih defaultMaxSize) as [ow oh].
  run_cases w; try reflexivity.
  destruct (Gallery.previewUrl render) as [u|]; [|reflexivity].
  destruct (JsString.truthy u); reflexivity.
Qed.

(** [handleDeleteImage], case by case. *)
Lemma handleDeleteImage_run (w : World) (render s : Gallery.State)
      (id : Z) (imageUrl : string) :
  let del := DbDelete "gallery" id in
  let key := JsString.lastPart (JsString.split "/" imageUrl) in
  let rm := StorageRemove "uploads" [key] in
  let failed t e :=
    (Returned tt, s,
     (t ++ [ConsoleError "Error deleting image:" e;
            ToastError "Failed to delete image"])%list) in
  let done t :=
    (Returned tt,
     Gallery.mkState
       (filter (fun img => negb (Gallery.gi_id img =? id)) (Gallery.images render))
       (Gallery.loading s) (Gallery.uploadDialogOpen s) (Gallery.selectedFile s)
       (Gallery.previewUrl s) (Gallery.uploading s),
     (t ++ [ToastSuccess "Image deleted successfully"])%list) in
  Gallery.handleDeleteImage w render id imageUrl s =
    match dbDelete w "gallery" id with
    | Resolved None =>
        if JsString.includes storageMarker imageUrl then
          match storageRemove w "uploads" [key] with
          | Resolved _ => done [del; rm]
          | Rejected e => failed [del; rm] e
          | NeverSettles => (Pending, s, [del; rm])
          end
        else done [del]
    | Resolved (Some e) => failed [del] e
    | Rejected e => failed [del] e
    | NeverSettles => (Pending, s, [del])
    end.
Proof.
  cbv zeta. unfold Gallery.handleDeleteImage, Gallery.setImages.
  destruct (dbDelete w "gallery" id) as [[?|]|?|] eqn:Hdb;
    run_monad; rewrite ?Hdb; simpl; try reflexivity.
  destruct (JsString.includes storageMarker imageUrl); simpl; [|reflexivity].
  destruct (storageRemove w "uploads" _) as [[?|]|?|]; reflexivity.
Qed.

(** ** Attempts of a successful run *)

Ltac in_trace := repeat first [left; reflexivity | right].
Ltac not_succeeded := unfold uploadSucceeded; simpl; intuition discriminate.

(** C3 as stated fails: a successful run whose prior reference is an
    external URL makes no store deletion attempt. *)
Lemma external_prior_reference_not_deleted :
  ~ (forall (w : World) (value : string) (f : File) (s : ImageUpload.State),
       let t := traceOf (ImageUpload.uploadImage w value f s) in
       uploadSucceeded t -> value <> EmptyString ->
       count isStorageRemove t = 1%nat /\ count isStorageUpload t = 1%nat).
Proof.
  intros H.
  destruct (H sampleWorld externalUrl pngFile fieldState) as [Hrm _].
  - vm_compute. in_trace.
  - discriminate.
  - vm_compute in Hrm. discriminate Hrm.
Qed.

(** C3, amended. A successful run of [uploadImage] makes exactly one
    upload attempt; it makes exactly one store deletion attempt, for the
    key of the prior reference, when the prior reference contains the
    storage path marker, and none when it does not.  A successful run of
    the gallery's [handleConfirmUpload], which has no prior reference,
    makes exactly one upload attempt and no deletion attempt. *)
Theorem successful_run_attempts
        (w : World) (value : string) (f : File) (s : ImageUpload.State)
        (render g : Gallery.State) :
  let t := traceOf (ImageUpload.uploadImage w value f s) in
  let t' := traceOf (Gallery.handleConfirmUpload w render g) in
  (uploadSucceeded t ->
   count isStorageUpload t = 1%nat /\
   (contains storageMarker value ->
    filter isStorageRemove t =
      [StorageRemove "uploads" [JsString.lastPart (JsString.split "/" value)]]) /\
   (~ contains storageMarker value -> filter isStorageRemove t = [])) /\
  (uploadSucceeded t' ->
   count isStorageUpload t' = 1%nat /\ filter isStorageRemove t' = []).
Proof.
  cbv zeta. split.
  - rewrite uploadImage_run. cbv zeta. rewrite deleteOldImage_run.
    destruct (JsString.includes storageMarker value) eqn:Hinc; cbv zeta.
    + assert (Hc : contains storageMarker value) by now apply includes_spec.
      destruct (storageRemove w "uploads" _) as [[?|]|?|]; simpl;
        try not_succeeded;
        (destruct (decode w f) as [[iw ih]|]; [|not_succeeded]);
        cbv zeta;
        (destruct (storageUpload w "uploads" _ _ _) as [[?|]|?|];
         try not_succeeded);
        intros _; repeat split; try reflexivity; intros; contradiction.
    + assert (Hc : ~ contains storageMarker value)
        by (rewrite <- includes_spec; congruence).
      simpl. destruct (decode w f) as [[iw ih]|]; [|not_succeeded].
      cbv zeta.
      destruct (storageUpload w "uploads" _ _ _) as [[?|]|?|]; not_succeeded.
  - destruct (Gallery.selectedFile render) as [sel|] eqn:Hsel.
    + rewrite (handleConfirmUpload_run w render g sel Hsel). cbv zeta.
      destruct (decode w sel) as [[iw ih]|]; [|not_succeeded].
      destruct (storageUpload w "uploads" _ _ _) as [[?|]|?|]; try not_succeeded.
      destruct (dbInsert w "gallery" _) as [[?|]|?|]; try not_succeeded.
      intros _. unfold revoked.
      destruct (Gallery.previewUrl render) as [u|]; [destruct (JsString.truthy u)|];
        split; reflexivity.
    + unfold Gallery.handleConfirmUpload. rewrite Hsel. not_succeeded.
Qed.

Lemma successful_run_attempts_witness :
  count isStorageUpload
    (traceOf (ImageUpload.uploadImage sampleWorld managedUrl pngFile fieldState)) = 1%nat /\
  filter isStorageRemove
    (traceOf (ImageUpload.uploadImage sampleWorld managedUrl pngFile fieldState))
  = [StorageRemove "uploads" ["old-1.jpg"]] /\
  filter isStorageRemove
    (traceOf (Gallery.handleConfirmUpload sampleWorld galleryState galleryState)) = [].
Proof.
  pose proof (successful_run_attempts sampleWorld managedUrl pngFile fieldState
                galleryState galleryState) as [Hfield Hgallery].
  cbv zeta in Hfield, Hgallery.
  destruct Hfield as [Hup [Hrm _]]; [vm_compute; in_trace|].
  destruct Hgallery as [_ Hnone]; [vm_compute; in_trace|].
  split; [exact Hup|]. split; [|exact Hnone].
  apply Hrm. exists "https://project.supabase.co", "old-1.jpg". reflexivity.
Defined.

(** ** Failures *)

Lemma uploadImage_no_prior (w : World) (s : ImageUpload.State) :
  ImageUpload.deleteOldImage w EmptyString
    (ImageUpload.mkState true (ImageUpload.preview s) (ImageUpload.fileInput s))
  = (Returned tt,
     ImageUpload.mkState true (ImageUpload.preview s) (ImageUpload.fileInput s), []).
Proof. reflexivity. Qed.

(** C5 as stated fails: when the remove call resolves with an error
    object, the deletion has failed and nothing is logged. *)
Lemma returned_cleanup_error_is_not_logged :
  ~ (forall (w : World) (value : string) (f : File) (s : ImageUpload.State)
            (e : JsError),
       let key := JsString.lastPart (JsString.split "/" value) in
       let r := ImageUpload.uploadImage w value f s in
       let r0 := ImageUpload.uploadImage w EmptyString f s in
       contains storageMarker value ->
       failedWith (storageRemove w "uploads" [key]) e ->
       In (ConsoleError "Error deleting old image:" e) (traceOf r) /\
       filter isToastError (traceOf r) = filter isToastError (traceOf r0) /\
       (forall iw ih, decode w f = Some (iw, ih) ->
        count isStorageUpload (traceOf r) = 1%nat)).
Proof.
  intros H.
  destruct (H (worldWith (Resolved (Some (mkError "Object not found")))
                 (Resolved None) (Resolved None))
              managedUrl pngFile fieldState (mkError "Object not found"))
    as [Hlog _].
  - exists "https://project.supabase.co", "old-1.jpg". reflexivity.
  - left. reflexivity.
  - vm_compute in Hlog. intuition discriminate.
Qed.

(** C5, amended. Let the prior reference be store-managed and let its
    deletion fail with error [e].  Then the run of [uploadImage] is the
    run without a prior reference, preceded by the remove call and by
    what the failure leaves in the log: same outcome, same final state,
    same toasts, so the failure raises no error toast of its own and
    aborts nothing.  When the remove call throws, the error is caught
    and the log is one [console.error]; when it resolves with an error
    object, nothing is logged.  With a decodable file the run goes on to
    resize and makes its one upload call. *)
Theorem cleanup_failure_is_isolated
        (w : World) (value : string) (f : File) (s : ImageUpload.State)
        (e : JsError) :
  let key := JsString.lastPart (JsString.split "/" value) in
  let r := ImageUpload.uploadImage w value f s in
  let r0 := ImageUpload.uploadImage w EmptyString f s in
  contains storageMarker value ->
  failedWith (storageRemove w "uploads" [key]) e ->
  (exists logged,
     traceOf r = (StorageRemove "uploads" [key] :: logged ++ traceOf r0)%list /\
     (storageRemove w "uploads" [key] = Rejected e ->
      logged = [ConsoleError "Error deleting old image:" e]) /\
     (storageRemove w "uploads" [key] = Resolved (Some e) -> logged = [])) /\
  outcomeOf r = outcomeOf r0 /\
  stateOf r = stateOf r0 /\
  filter isToastError (traceOf r) = filter isToastError (traceOf r0) /\
  (forall iw ih, decode w f = Some (iw, ih) ->
   In (CreateObjectURL f) (traceOf r) /\
   count isStorageUpload (traceOf r) = 1%nat).
Proof.
  cbv zeta. intros Hc Hfail. apply includes_spec in Hc.
  rewrite !uploadImage_run. cbv zeta.
  rewrite uploadImage_no_prior, deleteOldImage_run, Hc. cbv zeta.
  destruct Hfail as [Hr | Hr]; rewrite Hr; simpl;
    (destruct (decode w f) as [[iw ih]|]; cbv zeta;
     [destruct (storageUpload w "uploads" _ _ _) as [[?|]|?|]|]; simpl).
  1-5: split;
    [exists []; split; [reflexivity | split; intros; solve [reflexivity | discriminate]]|].
  6-10: split;
    [exists [ConsoleError "Error deleting old image:" e];
     split; [reflexivity | split; intros; solve [reflexivity | discriminate]]|].
  all: split; [reflexivity | split; [reflexivity | split; [reflexivity|]]];
    intros ? ? Hd; first [discriminate Hd | split; [in_trace | reflexivity]].
Qed.

Lemma cleanup_failure_is_isolated_witness :
  let w := worldWith (Rejected (mkError "network down")) (Resolved None) (Resolved None) in
  filter isToastError (traceOf (ImageUpload.uploadImage w managedUrl pngFile fieldState)) = [] /\
  count isStorageUpload
    (traceOf (ImageUpload.uploadImage w managedUrl pngFile fieldState)) = 1%nat.
Proof.
  cbv zeta.
  pose proof (cleanup_failure_is_isolated
                (worldWith (Rejected (mkError "network down")) (Resolved None)
                   (Resolved None))
                managedUrl pngFile fieldState (mkError "network down")) as H.
  cbv zeta in H.
  destruct H as [_ [_ [_ [Htoast Hup]]]].
  - exists "https://project.supabase.co", "old-1.jpg". reflexivity.
  - right. reflexivity.
  - split; [rewrite Htoast; reflexivity | apply (Hup 2000 1000); reflexivity].
Defined.

Ltac upload_event_cases :=
  repeat match goal with
         | H : _ \/ _ |- _ => destruct H
         | H : False |- _ => destruct H
         | H : In _ (_ ++ _) |- _ => apply in_app_or in H
         | H : In _ (revoked ?r) |- _ =>
             unfold revoked in H;
             destruct (Gallery.previewUrl r) as [?u|];
             [destruct (JsString.truthy u)|]; simpl in H
         | H : In _ (_ :: _) |- _ => simpl in H
         | H : In _ [] |- _ => destruct H
         | H : StorageUpload _ _ _ _ = StorageUpload _ _ _ _ |- _ =>
             injection H as <- <- <- <-
         | H : _ = StorageUpload _ _ _ _ |- _ => discriminate H
         end.

Ltac settle_failure :=
  match goal with
  | Hf : failedWith ?r _, Heq : ?r = _ |- _ =>
      unfold failedWith in Hf; rewrite Heq in Hf;
      destruct Hf as [Hf | Hf]; try discriminate Hf; injection Hf as <-
  end.

(** C6. When the upload call of a run fails with error [e] (the result
    carries an error object, a key conflict included, or the call
    throws), the handler still returns, tells the user with an error
    toast, and commits no link: [uploadImage] never calls [onChange],
    keeps [preview] and shows no success toast; the gallery's
    [handleConfirmUpload] shows the toast 'Failed to upload image' and
    makes no database call at all, so no row is inserted. *)
Theorem upload_error_commits_no_link
        (w : World) (value : string) (f : File) (s : ImageUpload.State)
        (render g : Gallery.State) :
  let r := ImageUpload.uploadImage w value f s in
  let r' := Gallery.handleConfirmUpload w render g in
  (forall bucket key body options e,
     In (StorageUpload bucket key body options) (traceOf r) ->
     failedWith (storageUpload w bucket key body options) e ->
     outcomeOf r = Returned tt /\
     In (ToastError (JsString.orElse (message e) "Failed to upload image")) (traceOf r) /\
     filter isOnChange (traceOf r) = [] /\
     ImageUpload.preview (stateOf r) = ImageUpload.preview s /\
     ~ uploadSucceeded (traceOf r)) /\
  (forall bucket key body options e,
     In (StorageUpload bucket key body options) (traceOf r') ->
     failedWith (storageUpload w bucket key body options) e ->
     outcomeOf r' = Returned tt /\
     In (ToastError "Failed to upload image") (traceOf r') /\
     filter isDbCall (traceOf r') = [] /\
     ~ uploadSucceeded (traceOf r')).
Proof.
  cbv zeta. split; intros bucket key body options e Hin Hfail; revert Hin.
  - rewrite uploadImage_run. cbv zeta. rewrite deleteOldImage_run.
    destruct (JsString.includes storageMarker value); cbv zeta;
      repeat (world_case w; simpl); simpl; intros Hin;
      upload_event_cases; settle_failure;
      (split; [reflexivity | split; [in_trace | split; [reflexivity | split;
         [reflexivity | not_succeeded]]]]).
  - destruct (Gallery.selectedFile render) as [sel|] eqn:Hsel.
    + rewrite (handleConfirmUpload_run w render g sel Hsel). cbv zeta.
      repeat (world_case w; simpl); simpl; intros Hin;
        upload_event_cases; settle_failure;
        (split; [reflexivity | split; [in_trace | split;
           [reflexivity | not_succeeded]]]).
    + unfold Gallery.handleConfirmUpload. rewrite Hsel. intros [].
Qed.

Lemma upload_error_commits_no_link_witness :
  let w := worldWith (Resolved None)
             (Resolved (Some (mkError "The resource already exists")))
             (Resolved None) in
  filter isOnChange (traceOf (ImageUpload.uploadImage w EmptyString pngFile fieldState)) = [] /\
  filter isDbCall (traceOf (Gallery.handleConfirmUpload w galleryState galleryState)) = [].
Proof.
  cbv zeta.
  pose proof (upload_error_commits_no_link
                (worldWith (Resolved None)
                   (Resolved (Some (mkError "The resource already exists")))
                   (Resolved None))
                EmptyString pngFile fieldState galleryState galleryState) as H.
  cbv zeta in H. destruct H as [Hfield Hgallery]. split.
  - edestruct Hfield as [_ [_ [Hnone _]]]; [cbv; in_trace | left; reflexivity | exact Hnone].
  - edestruct Hgallery as [_ [_ [Hnone _]]]; [cbv; in_trace | left; reflexivity | exact Hnone].
Defined.

(** ** The upload call *)

(** The only upload event of a run of [uploadImage]. *)
Lemma uploadImage_upload_event
      (w : World) (value : string) (f : File) (s : ImageUpload.State)
      (bucket key : string) (body : option Blob) (options : option FileOptions) :
  In (StorageUpload bucket key body options)
     (traceOf (ImageUpload.uploadImage w value f s)) ->
  exists iw ih,
    decode w f = Some (iw, ih) /\
    bucket = "uploads" /\
    key = ImageUpload.uploadKey w f /\
    body = canvasToBlob (fst (ImageUpload.outputSize iw ih defaultMaxSize))
             (snd (ImageUpload.outputSize iw ih defaultMaxSize))
             "image/jpeg" (8 # 10) /\
    options = Some (mkFileOptions "image/jpeg" false).
Proof.
  rewrite uploadImage_run. cbv zeta. rewrite deleteOldImage_run.
  destruct (JsString.includes storageMarker value); cbv zeta;
    repeat (world_case w; simpl); simpl; intros Hin;
    upload_event_cases; do 2 eexists; repeat split; reflexivity.
Qed.

(** The only upload event of a run of [handleConfirmUpload]. *)
Lemma handleConfirmUpload_upload_event
      (w : World) (render g : Gallery.State)
      (bucket key : string) (body : option Blob) (options : option FileOptions) :
  In (StorageUpload bucket key body options)
     (traceOf (Gallery.handleConfirmUpload w render g)) ->
  exists sel iw ih,
    Gallery.selectedFile render = Some sel /\
    decode w sel = Some (iw, ih) /\
    bucket = "uploads" /\
    key = Gallery.uploadKey w sel /\
    body = canvasToBlob (fst (Gallery.outputSize iw ih defaultMaxSize))
             (snd (Gallery.outputSize iw ih defaultMaxSize))
             "image/jpeg" (9 # 10) /\
    options = None.
Proof.
  destruct (Gallery.selectedFile render) as [sel|] eqn:Hsel.
  - rewrite (handleConfirmUpload_run w render g sel Hsel). cbv zeta.
    repeat (world_case w; simpl); simpl; intros Hin;
      upload_event_cases; exists sel; do 2 eexists;
      repeat split; first [eassumption | reflexivity].
  - unfold Gallery.handleConfirmUpload. rewrite Hsel. intros [].
Qed.

(** C7 as stated fails: the upload call of the gallery passes no
    options, so the call declares neither a media type nor an upsert
    flag. *)
Lemma gallery_upload_passes_no_options :
  ~ (forall (w : World) (render g : Gallery.State)
            (bucket key : string) (body : option Blob) (options : option FileOptions),
       In (StorageUpload bucket key body options)
          (traceOf (Gallery.handleConfirmUpload w render g)) ->
       exists o, options = Some o /\ contentType o = "image/jpeg" /\ upsert o = false).
Proof.
  intros H.
  edestruct (H sampleWorld galleryState galleryState) as [o [Ho _]].
  - cbv. in_trace.
  - discriminate Ho.
Qed.

(** C7, amended. Every upload call goes to the [uploads] bucket under
    the key the run has built, and its body is what [resizeImage]
    resolved with; when the resized canvas has pixels (both output edges
    at least one) that body is the derived blob of type [image/jpeg]
    with the output size.  The call of [uploadImage] passes the options
    [contentType: 'image/jpeg'] and [upsert: false]; the call of the
    gallery's [handleConfirmUpload] passes no options object. *)
Theorem upload_call_arguments
        (w : World) (value : string) (f : File) (s : ImageUpload.State)
        (render g : Gallery.State)
        (bucket key : string) (body : option Blob) (options : option FileOptions) :
  (In (StorageUpload bucket key body options)
      (traceOf (ImageUpload.uploadImage w value f s)) ->
   bucket = "uploads" /\
   key = ImageUpload.uploadKey w f /\
   outcomeOf (ImageUpload.resizeImage w f defaultMaxSize s) = Returned body /\
   (exists iw ih,
      decode w f = Some (iw, ih) /\
      let size := ImageUpload.outputSize iw ih defaultMaxSize in
      (0 < fst size -> 0 < snd size ->
       body = Some (mkBlob (fst size) (snd size) "image/jpeg" (8 # 10)))) /\
   options = Some (mkFileOptions "image/jpeg" false)) /\
  (In (StorageUpload bucket key body options)
      (traceOf (Gallery.handleConfirmUpload w render g)) ->
   exists sel,
     Gallery.selectedFile render = Some sel /\
     bucket = "uploads" /\
     key = Gallery.uploadKey w sel /\
     outcomeOf (Gallery.resizeImage w sel defaultMaxSize g) = Returned body /\
     (exists iw ih,
        decode w sel = Some (iw, ih) /\
        let size := Gallery.outputSize iw ih defaultMaxSize in
        (0 < fst size -> 0 < snd size ->
         body = Some (mkBlob (fst size) (snd size) "image/jpeg" (9 # 10)))) /\
     options = None).
Proof.
  split; intros Hin.
  - apply uploadImage_upload_event in Hin
      as [iw [ih [Hd [-> [-> [-> ->]]]]]].
    split; [reflexivity | split; [reflexivity|]].
    split; [now rewrite (ImageUpload_resizeImage_run w f _ iw ih s Hd)|].
    split; [|reflexivity].
    exists iw, ih. split; [exact Hd|]. cbv zeta. intros Hw Hh.
    now apply canvasToBlob_pixels.
  - apply handleConfirmUpload_upload_event in Hin
      as [sel [iw [ih [Hsel [Hd [-> [-> [-> ->]]]]]]]].
    exists sel. split; [exact Hsel|]. split; [reflexivity | split; [reflexivity|]].
    split; [now rewrite (Gallery_resizeImage_run w sel _ iw ih g Hd)|].
    split; [|reflexivity].
    exists iw, ih. split; [exact Hd|]. cbv zeta. intros Hw Hh.
    now apply canvasToBlob_pixels.
Qed.

Lemma upload_call_arguments_witness :
  let body := Some (mkBlob 1080 540 "image/jpeg" (8 # 10)) in
  let body' := Some (mkBlob 1080 540 "image/jpeg" (9 # 10)) in
  ("4fzyo82mvyr-1700000000000.png" = ImageUpload.uploadKey sampleWorld pngFile /\
   outcomeOf (ImageUpload.resizeImage sampleWorld pngFile defaultMaxSize fieldState)
   = Returned body /\
   body = Some (mkBlob (fst (ImageUpload.outputSize 2000 1000 defaultMaxSize))
                  (snd (ImageUpload.outputSize 2000 1000 defaultMaxSize))
                  "image/jpeg" (8 # 10))) /\
  exists sel,
    Gallery.selectedFile galleryState = Some sel /\
    "1700000000000-photo.png" = Gallery.uploadKey sampleWorld sel /\
    outcomeOf (Gallery.resizeImage sampleWorld sel defaultMaxSize galleryState)
    = Returned body'.
Proof.
  cbv zeta. split.
  - destruct (proj1 (upload_call_arguments sampleWorld EmptyString pngFile fieldState
                       galleryState galleryState
                       "uploads" "4fzyo82mvyr-1700000000000.png"
                       (Some (mkBlob 1080 540 "image/jpeg" (8 # 10)))
                       (Some (mkFileOptions "image/jpeg" false))))
      as [_ [Hkey [Hbody [[iw [ih [Hd Hpixels]]] _]]]]; [cbv; in_trace|].
    split; [exact Hkey | split; [exact Hbody|]].
    injection Hd as <- <-. apply Hpixels; reflexivity.
  - destruct (proj2 (upload_call_arguments sampleWorld EmptyString pngFile fieldState
                       galleryState galleryState
                       "uploads" "1700000000000-photo.png"
                       (Some (mkBlob 1080 540 "image/jpeg" (9 # 10))) None))
      as [sel [Hsel [_ [Hkey [Hbody _]]]]]; [cbv; in_trace|].
    exists sel. split; [exact Hsel | split; [exact Hkey | exact Hbody]].
Defined.

(** ** The object key *)

(** C8 as stated fails: for a file named [photo.png] both keys end in
    [.png], not in a JPEG suffix. *)
Lemma upload_key_keeps_source_extension :
  ~ (forall (w : World) (value : string) (f : File) (s : ImageUpload.State)
            (bucket key : string) (body : option Blob) (options : option FileOptions),
       In (StorageUpload bucket key body options)
          (traceOf (ImageUpload.uploadImage w value f s)) ->
       hasJpegSuffix key = true) /\
  ~ (forall (w : World) (render g : Gallery.State)
            (bucket key : string) (body : option Blob) (options : option FileOptions),
       In (StorageUpload bucket key body options)
          (traceOf (Gallery.handleConfirmUpload w render g)) ->
       hasJpegSuffix key = true).
Proof.
  split; intros H.
  - assert (Hs : hasJpegSuffix "4fzyo82mvyr-1700000000000.png" = true).
    { apply (H sampleWorld EmptyString pngFile fieldState "uploads" _
               (Some (mkBlob 1080 540 "image/jpeg" (8 # 10)))
               (Some (mkFileOptions "image/jpeg" false))).
      cbv. in_trace. }
    vm_compute in Hs. discriminate Hs.
  - assert (Hs : hasJpegSuffix "1700000000000-photo.png" = true).
    { apply (H sampleWorld galleryState galleryState "uploads" _
               (Some (mkBlob 1080 540 "image/jpeg" (9 # 10))) None).
      cbv. in_trace. }
    vm_compute in Hs. discriminate Hs.
Qed.

(** C8, amended. The key under which [uploadImage] uploads is the
    random token, a dash, the timestamp, a dot and the extension of the
    selected file's name: the text after the last dot of the name, or
    the whole name when it has no dot.  The key under which the
    gallery's [handleConfirmUpload] uploads is the timestamp, a dash and
    the selected file's name.  In both, the suffix is that of the source
    file; it is not chosen from the JPEG encoding of the blob. *)
Theorem upload_key_shape
        (w : World) (value : string) (f : File) (s : ImageUpload.State)
        (render g : Gallery.State)
        (bucket key : string) (body : option Blob) (options : option FileOptions) :
  let token := JsString.substringFrom 2 (mathRandom36 w) in
  let stamp := JsString.ofZ (dateNow w) in
  (In (StorageUpload bucket key body options)
      (traceOf (ImageUpload.uploadImage w value f s)) ->
   exists ext,
     key = token ++ "-" ++ stamp ++ "." ++ ext /\
     JsString.mem "." ext = false /\
     (JsString.mem "." (file_name f) = true ->
      exists stem, file_name f = stem ++ "." ++ ext) /\
     (JsString.mem "." (file_name f) = false -> ext = file_name f)) /\
  (In (StorageUpload bucket key body options)
      (traceOf (Gallery.handleConfirmUpload w render g)) ->
   exists sel,
     Gallery.selectedFile render = Some sel /\
     key = stamp ++ "-" ++ file_name sel).
Proof.
  cbv zeta. split; intros Hin.
  - apply uploadImage_upload_event in Hin as [_ [_ [_ [_ [-> _]]]]].
    exists (JsString.lastPart (JsString.split "." (file_name f))).
    split; [reflexivity|]. split; [apply lastPart_split_no_sep|]. split.
    + apply lastPart_split_after_last.
    + intros Hno. now rewrite (lastPart_split_whole "." _ Hno).
  - apply handleConfirmUpload_upload_event in Hin
      as [sel [_ [_ [Hsel [_ [_ [-> _]]]]]]].
    exists sel. split; [exact Hsel | reflexivity].
Qed.

Lemma upload_key_shape_witness :
  (exists ext,
     "4fzyo82mvyr-1700000000000.png" = "4fzyo82mvyr" ++ "-" ++ "1700000000000" ++ "." ++ ext /\
     JsString.mem "." ext = false) /\
  exists sel,
    Gallery.selectedFile galleryState = Some sel /\
    "1700000000000-photo.png" = "1700000000000" ++ "-" ++ file_name sel.
Proof.
  pose proof (upload_key_shape sampleWorld EmptyString pngFile fieldState
                galleryState galleryState "uploads"
                "4fzyo82mvyr-1700000000000.png"
                (Some (mkBlob 1080 540 "image/jpeg" (8 # 10)))
                (Some (mkFileOptions "image/jpeg" false))) as Hfield.
  pose proof (upload_key_shape sampleWorld EmptyString pngFile fieldState
                galleryState galleryState "uploads"
                "1700000000000-photo.png"
                (Some (mkBlob 1080 540 "image/jpeg" (9 # 10))) None) as Hgallery.
  cbv zeta in Hfield, Hgallery. split.
  - destruct (proj1 Hfield) as [ext [Hkey [Hdot _]]]; [cbv; in_trace|].
    exists ext. split; [exact Hkey | exact Hdot].
  - destruct (proj2 Hgallery) as [sel [Hsel Hkey]]; [cbv; in_trace|].
    exists sel. split; [exact Hsel | exact Hkey].
Defined.

(** ** Removal *)

(** C9. When the linked URL does not contain the storage path marker,
    [removeImage] makes no store call and still clears the link: it
    returns, its only event is [onChange] with the empty string, and
    [preview] and the file input end empty.  [handleDeleteImage] of the
    gallery makes no store call and still issues the deletion of the
    row, as its first event; when the database accepts, the image is
    dropped from the list and the success toast shown. *)
Theorem external_reference_removed_without_store_call
        (w : World) (render s : ImageUpload.State)
        (grender g : Gallery.State) (id : Z) (imageUrl : string) :
  let r := ImageUpload.removeImage w render s in
  let r' := Gallery.handleDeleteImage w grender id imageUrl g in
  (~ contains storageMarker (ImageUpload.preview render) ->
   outcomeOf r = Returned tt /\
   traceOf r = [OnChange EmptyString] /\
   ImageUpload.preview (stateOf r) = EmptyString /\
   ImageUpload.fileInput (stateOf r) = EmptyString) /\
  (~ contains storageMarker imageUrl ->
   filter isStoreCall (traceOf r') = [] /\
   filter isDbCall (traceOf r') = [DbDelete "gallery" id] /\
   hd_error (traceOf r') = Some (DbDelete "gallery" id) /\
   (dbDelete w "gallery" id = Resolved None ->
    traceOf r' = [DbDelete "gallery" id; ToastSuccess "Image deleted successfully"] /\
    Gallery.images (stateOf r') =
      filter (fun img => negb (Gallery.gi_id img =? id)) (Gallery.images grender))).
Proof.
  cbv zeta. split; intros Hn; rewrite <- includes_spec in Hn;
    apply not_true_is_false in Hn.
  - rewrite removeImage_run. cbv zeta. rewrite deleteOldImage_run, Hn.
    repeat split.
  - rewrite handleDeleteImage_run. cbv zeta. rewrite Hn.
    destruct (dbDelete w "gallery" id) as [[?|]|?|]; simpl;
      repeat split; try reflexivity; discriminate.
Qed.

Lemma external_reference_removed_without_store_call_witness :
  traceOf (ImageUpload.removeImage sampleWorld
             (ImageUpload.mkState false externalUrl "old.jpg")
             (ImageUpload.mkState false externalUrl "old.jpg")) = [OnChange EmptyString] /\
  traceOf (Gallery.handleDeleteImage sampleWorld galleryState 7 externalUrl galleryState)
  = [DbDelete "gallery" 7; ToastSuccess "Image deleted successfully"] /\
  Gallery.images
    (stateOf (Gallery.handleDeleteImage sampleWorld galleryState 7 externalUrl galleryState))
  = [].
Proof.
  pose proof (external_reference_removed_without_store_call sampleWorld
                (ImageUpload.mkState false externalUrl "old.jpg")
                (ImageUpload.mkState false externalUrl "old.jpg")
                galleryState galleryState 7 externalUrl) as H.
  cbv zeta in H. destruct H as [Hfield Hgallery].
  assert (Hext : ~ contains storageMarker externalUrl).
  { intros Hc. apply includes_spec in Hc. vm_compute in Hc. discriminate Hc. }
  destruct (Hfield Hext) as [_ [Htrace _]].
  destruct (Hgallery Hext) as [_ [_ [_ Hok]]].
  destruct (Hok eq_refl) as [Hdel Himages].
  split; [exact Htrace | split; [exact Hdel | exact Himages]].
Defined.

(** C10. [handleDeleteImage] issues the deletion of the database row
    first.  When that call fails with error [e] (the result carries an
    error, or the call throws), the handler stops there: it logs, shows
    the toast 'Failed to delete image', leaves the state as it was and
    makes no store call.  A store remove appears in a trace only after
    the row deletion, and only when the database answered without
    error. *)
Theorem gallery_row_deleted_before_object
        (w : World) (render g : Gallery.State) (id : Z) (imageUrl : string) :
  let r := Gallery.handleDeleteImage w render id imageUrl g in
  (exists rest,
     traceOf r = DbDelete "gallery" id :: rest /\ filter isDbCall rest = []) /\
  (forall e,
     failedWith (dbDelete w "gallery" id) e ->
     outcomeOf r = Returned tt /\
     stateOf r = g /\
     traceOf r = [DbDelete "gallery" id; ConsoleError "Error deleting image:" e;
                  ToastError "Failed to delete image"] /\
     filter isStoreCall (traceOf r) = []) /\
  (forall bucket paths,
     In (StorageRemove bucket paths) (traceOf r) ->
     dbDelete w "gallery" id = Resolved None /\
     exists rest,
       traceOf r = DbDelete "gallery" id :: StorageRemove bucket paths :: rest).
Proof.
  cbv zeta. rewrite handleDeleteImage_run. cbv zeta.
  destruct (dbDelete w "gallery" id) as [[err|]|err|] eqn:Hdb;
    [| destruct (JsString.includes storageMarker imageUrl);
       [destruct (storageRemove w "uploads" _) as [[?|]|?|]|] | |];
    simpl; (split; [eexists; split; reflexivity|]); split.
  all: try (intros e' [Hf | Hf]; try discriminate Hf; injection Hf as <-;
            repeat split; reflexivity).
  all: intros bucket paths Hin; simpl in Hin;
    repeat match goal with
           | H : _ \/ _ |- _ => destruct H
           | H : False |- _ => destruct H
           | H : StorageRemove _ _ = StorageRemove _ _ |- _ => injection H as <- <-
           | H : _ = StorageRemove _ _ |- _ => discriminate H
           end;
    try (split; [reflexivity | eexists; reflexivity]).
Qed.

Lemma gallery_row_deleted_before_object_witness :
  let w := worldWith (Resolved None) (Resolved None)
             (Resolved (Some (mkError "permission denied"))) in
  filter isStoreCall
    (traceOf (Gallery.handleDeleteImage w galleryState 7 managedUrl galleryState)) = [] /\
  stateOf (Gallery.handleDeleteImage w galleryState 7 managedUrl galleryState)
  = galleryState.
Proof.
  cbv zeta.
  pose proof (gallery_row_deleted_before_object
                (worldWith (Resolved None) (Resolved None)
                   (Resolved (Some (mkError "permission denied"))))
                galleryState galleryState 7 managedUrl) as H.
  cbv zeta in H. destruct H as [_ [Hfail _]].
  destruct (Hfail (mkError "permission denied")) as [_ [Hstate [_ Hstore]]].
  - left. reflexivity.
  - split; [exact Hstore | exact Hstate].
Defined.

(** * Further properties of the handlers *)

(** ** From a public URL back to the key *)

Lemma mem_sep_after (sep : ascii) (a k : string) :
  JsString.mem sep (a ++ String sep k) = true.
Proof.
  rewrite mem_append. simpl. rewrite Ascii.eqb_refl. apply orb_true_r.
Qed.

(** After the last separator comes the last part. *)
Lemma lastPart_split_append (sep : ascii) (a k : string) :
  JsString.mem sep k = false ->
  JsString.lastPart (JsString.split sep (a ++ String sep k)) = k.
Proof.
  intros Hk. unfold JsString.lastPart.
  induction a as [|c a IH]; simpl.
  - rewrite Ascii.eqb_refl, (lastPart_split_whole sep k Hk). reflexivity.
  - pose proof (split_nonempty sep (a ++ String sep k)) as Hne.
    destruct (JsString.split sep (a ++ String sep k)) as [|h t] eqn:Hsp;
      [contradiction|].
    destruct (Ascii.eqb c sep); [exact IH|].
    destruct t as [|h' t']; [|exact IH].
    apply split_single_no_sep in Hsp. rewrite mem_sep_after in Hsp. discriminate.
Qed.

Lemma string_app_assoc (a b c : string) : (a ++ b) ++ c = a ++ b ++ c.
Proof. induction a as [|x a IH]; simpl; [reflexivity | now rewrite IH]. Qed.

Lemma contains_marker_append (base key : string) :
  JsString.includes storageMarker (base ++ storageMarker ++ key) = true.
Proof. apply includes_spec. now exists base, key. Qed.

Lemma marker_key_url (base key : string) :
  exists a, base ++ storageMarker ++ key = a ++ String "/" key.
Proof.
  exists (base ++ "/storage/v1/object/public/uploads").
  rewrite string_app_assoc. reflexivity.
Qed.

(** X1. For a key without a slash, the clean-up helpers recover the
    key from a public URL of the bucket: given [base ++ marker ++ key]
    they make exactly one remove, of [key]. *)
Theorem public_url_gives_back_key
        (w : World) (S : Type) (base key : string)
        (s : ImageUpload.State) (s' : S) :
  JsString.mem "/" key = false ->
  filter isStoreCall
    (traceOf (ImageUpload.deleteOldImage w (base ++ storageMarker ++ key) s))
  = [StorageRemove "uploads" [key]] /\
  filter isStoreCall
    (traceOf (Activities.deleteImageFromStorage w S (base ++ storageMarker ++ key) s'))
  = [StorageRemove "uploads" [key]].
Proof.
  intros Hk. rewrite deleteOldImage_run, deleteImageFromStorage_run.
  rewrite contains_marker_append. cbv zeta.
  destruct (marker_key_url base key) as [a ->].
  rewrite (lastPart_split_append "/" a key Hk).
  destruct (storageRemove w "uploads" [key]); split; reflexivity.
Qed.

Lemma public_url_gives_back_key_witness :
  filter isStoreCall (traceOf (ImageUpload.deleteOldImage sampleWorld managedUrl fieldState))
  = [StorageRemove "uploads" ["old-1.jpg"]].
Proof.
  apply (public_url_gives_back_key sampleWorld unit
           "https://project.supabase.co" "old-1.jpg" fieldState tt).
  reflexivity.
Defined.

(** X2. For a key with a folder part, [dir/leaf], the clean-up helper
    removes [leaf] only: the object it asks the store to remove is not
    the object the URL names. *)
Theorem nested_key_removes_leaf_only
        (w : World) (base dir leaf : string) (s : ImageUpload.State) :
  JsString.mem "/" leaf = false ->
  filter isStoreCall
    (traceOf (ImageUpload.deleteOldImage w
                (base ++ storageMarker ++ dir ++ "/" ++ leaf) s))
  = [StorageRemove "uploads" [leaf]] /\
  leaf <> dir ++ "/" ++ leaf.
Proof.
  intros Hk. split.
  - rewrite deleteOldImage_run, contains_marker_append. cbv zeta.
    replace (base ++ storageMarker ++ dir ++ "/" ++ leaf)
      with ((base ++ storageMarker ++ dir) ++ String "/" leaf)
      by (rewrite !string_app_assoc; reflexivity).
    rewrite (lastPart_split_append "/" _ leaf Hk).
    destruct (storageRemove w "uploads" [leaf]); reflexivity.
  - intros Heq. assert (Hm : JsString.mem "/" leaf = true).
    { rewrite Heq. apply (mem_sep_after "/" dir leaf). }
    congruence.
Qed.

Lemma nested_key_removes_leaf_only_witness :
  filter isStoreCall
    (traceOf (ImageUpload.deleteOldImage sampleWorld
                "https://p.supabase.co/storage/v1/object/public/uploads/2024/a.jpg"
                fieldState))
  = [StorageRemove "uploads" ["a.jpg"]].
Proof.
  apply (nested_key_removes_leaf_only sampleWorld
           "https://p.supabase.co" "2024" "a.jpg" fieldState).
  reflexivity.
Defined.

(** ** The image field over several steps *)

(** X3. After a successful [uploadImage], when the public URL of the
    store is a bucket URL ending in the uploaded key and the key has no
    slash, [removeImage] on the new render asks the store to remove
    exactly the key that was uploaded. *)
Theorem uploaded_image_is_the_one_removed
        (w : World) (value base : string) (f : File) (s : ImageUpload.State) :
  let key := ImageUpload.uploadKey w f in
  let r := ImageUpload.uploadImage w value f s in
  storagePublicUrl w "uploads" key = base ++ storageMarker ++ key ->
  JsString.mem "/" key = false ->
  uploadSucceeded (traceOf r) ->
  ImageUpload.preview (stateOf r) = base ++ storageMarker ++ key /\
  filter isStoreCall (traceOf (ImageUpload.removeImage w (stateOf r) (stateOf r)))
  = [StorageRemove "uploads" [key]].
Proof.
  cbv zeta. intros Hurl Hkey.
  assert (Hrm : forall st : ImageUpload.State,
             ImageUpload.preview st = base ++ storageMarker ++ ImageUpload.uploadKey w f ->
             filter isStoreCall (traceOf (ImageUpload.removeImage w st st))
             = [StorageRemove "uploads" [ImageUpload.uploadKey w f]]).
  { intros st Hp. rewrite removeImage_run. cbv zeta. rewrite deleteOldImage_run, Hp.
    rewrite contains_marker_append. cbv zeta.
    destruct (marker_key_url base (ImageUpload.uploadKey w f)) as [a ->].
    rewrite (lastPart_split_append "/" a _ Hkey).
    destruct (storageRemove w "uploads" _); reflexivity. }
  rewrite uploadImage_run. cbv zeta. rewrite deleteOldImage_run.
  destruct (JsString.includes storageMarker value); cbv zeta;
    repeat (world_case w; simpl); simpl; try not_succeeded;
    intros _; (split; [exact Hurl | apply Hrm; exact Hurl]).
Qed.

Lemma uploaded_image_is_the_one_removed_witness :
  let r := ImageUpload.uploadImage sampleWorld EmptyString pngFile fieldState in
  filter isStoreCall (traceOf (ImageUpload.removeImage sampleWorld (stateOf r) (stateOf r)))
  = [StorageRemove "uploads" ["4fzyo82mvyr-1700000000000.png"]].
Proof.
  cbv zeta.
  apply (uploaded_image_is_the_one_removed sampleWorld EmptyString
           "https://project.supabase.co" pngFile fieldState).
  - reflexivity.
  - reflexivity.
  - vm_compute. in_trace.
Defined.



(** X5. The two upload handlers never throw, and [uploading] tells
    whether a run is over: a run either returns with [uploading] false
    or stays pending with [uploading] true.  When every call a run makes
    settles and the image decodes, the run returns. *)
Theorem upload_handlers_end_idle
        (w : World) (value : string) (f : File) (s : ImageUpload.State)
        (render g : Gallery.State) :
  let r := ImageUpload.uploadImage w value f s in
  let r' := Gallery.handleConfirmUpload w render g in
  ((outcomeOf r = Returned tt /\ ImageUpload.uploading (stateOf r) = false) \/
   (outcomeOf r = Pending /\ ImageUpload.uploading (stateOf r) = true)) /\
  (Gallery.selectedFile render <> None ->
   (outcomeOf r' = Returned tt /\ Gallery.uploading (stateOf r') = false) \/
   (outcomeOf r' = Pending /\ Gallery.uploading (stateOf r') = true)) /\
  ((forall bucket paths, storageRemove w bucket paths <> NeverSettles) ->
   (forall bucket key body options,
      storageUpload w bucket key body options <> NeverSettles) ->
   (forall table url, dbInsert w table url <> NeverSettles) ->
   (forall file, decode w file <> None) ->
   outcomeOf r = Returned tt /\ outcomeOf r' = Returned tt).
Proof.
  cbv zeta. split; [|split].
  - rewrite uploadImage_run. cbv zeta. rewrite deleteOldImage_run.
    destruct (JsString.includes storageMarker value); cbv zeta;
      repeat (world_case w; simpl); simpl; auto.
  - destruct (Gallery.selectedFile render) as [sel|] eqn:Hsel; [|congruence].
    intros _. rewrite (handleConfirmUpload_run w render g sel Hsel). cbv zeta.
    repeat (world_case w; simpl); simpl; auto.
  - intros Hrm Hup Hins Hdec. split.
    + rewrite uploadImage_run. cbv zeta. rewrite deleteOldImage_run.
      destruct (JsString.includes storageMarker value); cbv zeta;
        repeat (world_case w; simpl); simpl; try reflexivity;
        solve [ exfalso; eapply Hrm; eassumption
              | exfalso; eapply Hup; eassumption
              | exfalso; eapply Hdec; eassumption ].
    + destruct (Gallery.selectedFile render) as [sel|] eqn:Hsel.
      * rewrite (handleConfirmUpload_run w render g sel Hsel). cbv zeta.
        repeat (world_case w; simpl); simpl; try reflexivity;
          solve [ exfalso; eapply Hup; eassumption
                | exfalso; eapply Hins; eassumption
                | exfalso; eapply Hdec; eassumption ].
      * unfold Gallery.handleConfirmUpload. rewrite Hsel. reflexivity.
Qed.

Lemma upload_handlers_end_idle_witness :
  outcomeOf (ImageUpload.uploadImage sampleWorld managedUrl pngFile fieldState)
  = Returned tt /\
  outcomeOf (Gallery.handleConfirmUpload sampleWorld galleryState galleryState)
  = Returned tt.
Proof.
  apply (upload_handlers_end_idle sampleWorld managedUrl pngFile fieldState
           galleryState galleryState); intros; discriminate.
Defined.

(** X6. A file whose image never loads leaves both upload handlers
    pending for ever ([resizeImage] installs no [onerror] handler): no
    upload call is made, no toast of either kind is shown and
    [uploading] stays true.  In the image field the removal of the old
    image has already been asked for by then. *)
Theorem undecodable_file_stalls
        (w : World) (value : string) (f : File) (s : ImageUpload.State)
        (render g : Gallery.State) :
  let r := ImageUpload.uploadImage w value f s in
  let r' := Gallery.handleConfirmUpload w render g in
  decode w f = None ->
  (outcomeOf r = Pending /\
   ImageUpload.uploading (stateOf r) = true /\
   filter isStorageUpload (traceOf r) = [] /\
   filter isToastError (traceOf r) = [] /\
   ~ uploadSucceeded (traceOf r) /\
   (contains storageMarker value ->
    hd_error (traceOf r)
    = Some (StorageRemove "uploads" [JsString.lastPart (JsString.split "/" value)]))) /\
  (Gallery.selectedFile render = Some f ->
   r' = (Pending,
         Gallery.mkState (Gallery.images g) (Gallery.loading g)
           (Gallery.uploadDialogOpen g) (Gallery.selectedFile g)
           (Gallery.previewUrl g) true,
         [CreateObjectURL f])).
Proof.
  cbv zeta. intros Hd. split.
  - rewrite uploadImage_run. cbv zeta. rewrite deleteOldImage_run, Hd.
    destruct (JsString.includes storageMarker value) eqn:Hinc; cbv zeta.
    + destruct (storageRemove w "uploads" _) as [[?|]|?|]; simpl;
        repeat split; try reflexivity; not_succeeded.
    + simpl. repeat split; try not_succeeded.
      intros Hc. apply includes_spec in Hc. congruence.
  - intros Hsel. rewrite (handleConfirmUpload_run w render g f Hsel). cbv zeta.
    now rewrite Hd.
Qed.

Lemma undecodable_file_stalls_witness :
  let w := mkWorld (fun _ => None) (objectUrl sampleWorld) (mathRandom36 sampleWorld)
             (dateNow sampleWorld) (storageRemove sampleWorld)
             (storageUpload sampleWorld) (storagePublicUrl sampleWorld)
             (dbInsert sampleWorld) (dbDelete sampleWorld) in
  outcomeOf (ImageUpload.uploadImage w managedUrl pngFile fieldState) = Pending /\
  outcomeOf (Gallery.handleConfirmUpload w galleryState galleryState) = Pending.
Proof.
  cbv zeta.
  pose proof (undecodable_file_stalls
                (mkWorld (fun _ => None) (objectUrl sampleWorld)
                   (mathRandom36 sampleWorld) (dateNow sampleWorld)
                   (storageRemove sampleWorld) (storageUpload sampleWorld)
                   (storagePublicUrl sampleWorld) (dbInsert sampleWorld)
                   (dbDelete sampleWorld))
                managedUrl pngFile fieldState galleryState galleryState) as H.
  cbv zeta in H. destruct (H eq_refl) as [[Hfield _] Hgallery].
  split; [exact Hfield | rewrite (Hgallery eq_refl); reflexivity].
Defined.

(** X7. [removeImage] clears the link whenever the store answers,
    whatever the answer: it returns with [preview] and the file input
    empty and [onChange] called with the empty string as its last
    event, and it never shows an error toast.  It stays pending, with
    the state untouched and [onChange] not called, exactly when the
    previewed URL is store-managed and the remove call never settles. *)
Theorem removeImage_clears_link_when_store_answers
        (w : World) (render s : ImageUpload.State) :
  let r := ImageUpload.removeImage w render s in
  let url := ImageUpload.preview render in
  let key := JsString.lastPart (JsString.split "/" url) in
  filter isToastError (traceOf r) = [] /\
  (outcomeOf r = Pending <->
   contains storageMarker url /\ storageRemove w "uploads" [key] = NeverSettles) /\
  (outcomeOf r = Pending ->
   stateOf r = s /\ filter isOnChange (traceOf r) = []) /\
  (outcomeOf r <> Pending ->
   outcomeOf r = Returned tt /\
   stateOf r = ImageUpload.mkState (ImageUpload.uploading s) EmptyString EmptyString /\
   exists before,
     traceOf r = (before ++ [OnChange EmptyString])%list /\
     filter isOnChange before = []).
Proof.
  cbv zeta. rewrite removeImage_run. cbv zeta. rewrite deleteOldImage_run.
  rewrite <- includes_spec.
  destruct (JsString.includes storageMarker (ImageUpload.preview render)); cbv zeta.
  - destruct (storageRemove w "uploads" _) as [[err|]|err|]; simpl.
    + split; [reflexivity|].
      split; [split; [discriminate | intros [_ Hn]; discriminate Hn] |].
      split; [discriminate|]. intros _.
      split; [reflexivity | split; [reflexivity|]].
      eexists [_]. split; reflexivity.
    + split; [reflexivity|].
      split; [split; [discriminate | intros [_ Hn]; discriminate Hn] |].
      split; [discriminate|]. intros _.
      split; [reflexivity | split; [reflexivity|]].
      eexists [_]. split; reflexivity.
    + split; [reflexivity|].
      split; [split; [discriminate | intros [_ Hn]; discriminate Hn] |].
      split; [discriminate|]. intros _.
      split; [reflexivity | split; [reflexivity|]].
      eexists [_; _]. split; reflexivity.
    + split; [reflexivity|].
      split; [split; [intros _; split; reflexivity | reflexivity] |].
      split; [intros _; split; reflexivity|].
      intros Hn. exfalso. apply Hn. reflexivity.
  - simpl. split; [reflexivity|].
    split; [split; [discriminate | intros [Hf _]; discriminate Hf] |].
    split; [discriminate|]. intros _. split; [reflexivity | split; [reflexivity|]].
    exists []. split; reflexivity.
Qed.

Lemma removeImage_clears_link_when_store_answers_witness :
  let w := worldWith (Rejected (mkError "offline")) (Resolved None) (Resolved None) in
  let shown := ImageUpload.mkState false managedUrl "old-1.jpg" in
  ImageUpload.preview (stateOf (ImageUpload.removeImage w shown shown)) = EmptyString.
Proof.
  cbv zeta.
  pose proof (removeImage_clears_link_when_store_answers
                (worldWith (Rejected (mkError "offline")) (Resolved None) (Resolved None))
                (ImageUpload.mkState false managedUrl "old-1.jpg")
                (ImageUpload.mkState false managedUrl "old-1.jpg")) as H.
  cbv zeta in H. destruct H as [_ [_ [_ Hdone]]].
  destruct Hdone as [_ [Hstate _]]; [discriminate|].
  rewrite Hstate. reflexivity.
Defined.

(** ** The gallery over several steps *)

(** X8. A file that passes the checks of the gallery's
    [handleFileSelect] becomes the selection, with its object URL as
    preview and no remote call.  A confirm on the new render uploads
    under the key made of the timestamp and that file's name; when it
    succeeds, the public URL of that key is inserted, the selection and
    the preview are cleared, the dialog is closed, and the object URL
    made at selection is revoked if it is not empty. *)
Theorem selected_file_is_the_one_uploaded
        (w : World) (f : File) (g : Gallery.State) :
  let sel := Gallery.handleFileSelect w (Some f) g in
  let shown := stateOf sel in
  let r := Gallery.handleConfirmUpload w shown shown in
  let key := JsString.ofZ (dateNow w) ++ "-" ++ file_name f in
  let url := storagePublicUrl w "uploads" key in
  JsString.startsWith "image/" (file_type f) = true ->
  file_size f <= 10485760 ->
  sel = (Returned tt,
         Gallery.mkState (Gallery.images g) (Gallery.loading g)
           (Gallery.uploadDialogOpen g) (Some f) (Some (objectUrl w f))
           (Gallery.uploading g),
         [CreateObjectURL f]) /\
  (forall bucket k body options,
     In (StorageUpload bucket k body options) (traceOf r) -> k = key) /\
  (uploadSucceeded (traceOf r) ->
   In (DbInsert "gallery" url) (traceOf r) /\
   stateOf r = Gallery.mkState (Gallery.images g) (Gallery.loading g) false
                 None None false /\
   (objectUrl w f <> EmptyString -> In (RevokeObjectURL (objectUrl w f)) (traceOf r))).
Proof.
  cbv zeta. intros Hty Hsize.
  assert (Hsel : Gallery.handleFileSelect w (Some f) g =
                 (Returned tt,
                  Gallery.mkState (Gallery.images g) (Gallery.loading g)
                    (Gallery.uploadDialogOpen g) (Some f) (Some (objectUrl w f))
                    (Gallery.uploading g),
                  [CreateObjectURL f])).
  { unfold Gallery.handleFileSelect. rewrite Hty. cbn [negb].
    assert (Hle : (file_size f >? 10 * 1024 * 1024) = false) by lia.
    rewrite Hle. reflexivity. }
  rewrite Hsel. split; [reflexivity|]. unfold stateOf; cbn [fst snd].
  set (shown := Gallery.mkState (Gallery.images g) (Gallery.loading g)
                  (Gallery.uploadDialogOpen g) (Some f) (Some (objectUrl w f))
                  (Gallery.uploading g)).
  assert (Hshown : Gallery.selectedFile shown = Some f) by reflexivity.
  split.
  - intros bucket k body options Hin.
    apply handleConfirmUpload_upload_event in Hin
      as [sel [_ [_ [Hs [_ [_ [-> _]]]]]]].
    simpl in Hs. injection Hs as <-. reflexivity.
  - rewrite (handleConfirmUpload_run w shown shown f Hshown). cbv zeta.
    repeat (world_case w; simpl); simpl; try not_succeeded.
    intros _. split; [in_trace|]. split; [reflexivity|].
    intros Hne. unfold revoked; simpl.
    destruct (objectUrl w f) as [|c u]; [contradiction|]. simpl. in_trace.
Qed.

Lemma selected_file_is_the_one_uploaded_witness :
  let shown := stateOf (Gallery.handleFileSelect sampleWorld (Some pngFile)
                          GalleryData.initialState) in
  stateOf (Gallery.handleConfirmUpload sampleWorld shown shown)
  = Gallery.mkState [] true false None None false.
Proof.
  cbv zeta.
  pose proof (selected_file_is_the_one_uploaded sampleWorld pngFile
                GalleryData.initialState) as H.
  cbv zeta in H. destruct H as [_ [_ Hok]]; [reflexivity | simpl; lia |].
  destruct Hok as [_ [Hstate _]]; [vm_compute; in_trace | exact Hstate].
Defined.

(** Case analysis on the membership of an event in a computed trace. *)
Ltac break_in :=
  repeat match goal with
         | H : _ \/ _ |- _ => destruct H
         | H : False |- _ => destruct H
         | H : In _ (_ ++ _) |- _ => apply in_app_or in H
         | H : In _ (revoked ?r) |- _ =>
             unfold revoked in H;
             destruct (Gallery.previewUrl r) as [?u|];
             [destruct (JsString.truthy u)|]; simpl in H
         | H : In _ (_ :: _) |- _ => simpl in H
         | H : In _ [] |- _ => destruct H
         | H : DbInsert _ _ = DbInsert _ _ |- _ => injection H as <-
         | H : StorageRemove _ _ = StorageRemove _ _ |- _ => injection H as <- <-
         | H : @eq event _ _ |- _ => discriminate H
         end.

(** X9. [handleConfirmUpload] never asks the store to remove anything.
    When it ends with its error toast, the selection, the preview and
    the dialog are as they were and only [uploading] is reset, no object
    URL is revoked and the gallery is not fetched again.  So when the
    insert into the gallery fails after the upload, the uploaded object
    stays in the store without a row. *)
Theorem failed_gallery_upload_keeps_selection
        (w : World) (render g : Gallery.State) :
  let r := Gallery.handleConfirmUpload w render g in
  filter isStorageRemove (traceOf r) = [] /\
  (In (ToastError "Failed to upload image") (traceOf r) ->
   stateOf r = Gallery.mkState (Gallery.images g) (Gallery.loading g)
                 (Gallery.uploadDialogOpen g) (Gallery.selectedFile g)
                 (Gallery.previewUrl g) false /\
   (forall url, ~ In (RevokeObjectURL url) (traceOf r)) /\
   ~ In (DbSelect "gallery") (traceOf r)) /\
  (forall url e,
     In (DbInsert "gallery" url) (traceOf r) ->
     failedWith (dbInsert w "gallery" url) e ->
     count isStorageUpload (traceOf r) = 1%nat /\
     In (ToastError "Failed to upload image") (traceOf r)).
Proof.
  cbv zeta. destruct (Gallery.selectedFile render) as [sel|] eqn:Hsel.
  - rewrite (handleConfirmUpload_run w render g sel Hsel). cbv zeta.
    repeat (world_case w; simpl); simpl.
    all: split;
      [ first [ reflexivity
              | unfold revoked; destruct (Gallery.previewUrl render) as [u|];
                [destruct (JsString.truthy u)|]; reflexivity ] |].
    all: split.
    all: try solve [ intros Hin; exfalso; break_in ].
    all: try solve [ intros Hin; split; [reflexivity | split];
                     [intros url Hr | intros Hr]; break_in ].
    all: intros url e' Hin Hf; break_in; try settle_failure;
      try (split; [reflexivity | in_trace]).
  - unfold Gallery.handleConfirmUpload. rewrite Hsel. simpl.
    split; [reflexivity|]. split; [intros []|]. intros url e [].
Qed.

Lemma failed_gallery_upload_keeps_selection_witness :
  let w := mkWorld (decode sampleWorld) (objectUrl sampleWorld)
             (mathRandom36 sampleWorld) (dateNow sampleWorld)
             (storageRemove sampleWorld) (storageUpload sampleWorld)
             (storagePublicUrl sampleWorld)
             (fun _ _ => Resolved (Some (mkError "row level security")))
             (dbDelete sampleWorld) in
  let r := Gallery.handleConfirmUpload w galleryState galleryState in
  count isStorageUpload (traceOf r) = 1%nat /\
  Gallery.selectedFile (stateOf r) = Some pngFile.
Proof.
  cbv zeta.
  pose proof (failed_gallery_upload_keeps_selection
                (mkWorld (decode sampleWorld) (objectUrl sampleWorld)
                   (mathRandom36 sampleWorld) (dateNow sampleWorld)
                   (storageRemove sampleWorld) (storageUpload sampleWorld)
                   (storagePublicUrl sampleWorld)
                   (fun _ _ => Resolved (Some (mkError "row level security")))
                   (dbDelete sampleWorld))
                galleryState galleryState) as H.
  cbv zeta in H. destruct H as [_ [Hkeep Horphan]].
  edestruct Horphan as [Hup Htoast]; [cbv; in_trace | left; reflexivity |].
  destruct (Hkeep Htoast) as [Hstate _].
  split; [exact Hup | rewrite Hstate; reflexivity].
Defined.

(** X10. Once the row is deleted, what [handleDeleteImage] shows
    depends on the store.  When no store call is needed or the remove
    call resolves (even with an error object), the success toast is
    shown and the list becomes the list of the render without every
    image of that id, the others kept.  When the remove call throws, the
    error toast is shown, no success toast, and the state is untouched:
    the image is still listed although its row is gone. *)
Theorem gallery_delete_after_row_deletion
        (w : World) (render g : Gallery.State) (id : Z) (imageUrl : string) :
  let r := Gallery.handleDeleteImage w render id imageUrl g in
  let key := JsString.lastPart (JsString.split "/" imageUrl) in
  dbDelete w "gallery" id = Resolved None ->
  ((~ contains storageMarker imageUrl \/
    exists err, storageRemove w "uploads" [key] = Resolved err) ->
   In (ToastSuccess "Image deleted successfully") (traceOf r) /\
   filter isToastError (traceOf r) = [] /\
   (forall img,
      In img (Gallery.images (stateOf r)) <->
      In img (Gallery.images render) /\ Gallery.gi_id img <> id) /\
   Gallery.selectedFile (stateOf r) = Gallery.selectedFile g) /\
  (forall e,
     contains storageMarker imageUrl ->
     storageRemove w "uploads" [key] = Rejected e ->
     stateOf r = g /\
     In (ToastError "Failed to delete image") (traceOf r) /\
     ~ In (ToastSuccess "Image deleted successfully") (traceOf r)).
Proof.
  cbv zeta. intros Hdb. rewrite handleDeleteImage_run. cbv zeta. rewrite Hdb.
  assert (Hfilter : forall img,
             In img (filter (fun img => negb (Gallery.gi_id img =? id))
                       (Gallery.images render)) <->
             In img (Gallery.images render) /\ Gallery.gi_id img <> id).
  { intros img. rewrite filter_In, negb_true_iff, Z.eqb_neq. reflexivity. }
  destruct (JsString.includes storageMarker imageUrl) eqn:Hinc; split.
  - intros [Hn | [err Hrm]];
      [exfalso; apply Hn; now apply includes_spec|]. rewrite Hrm. simpl.
    split; [in_trace | split; [reflexivity | split; [exact Hfilter | reflexivity]]].
  - intros e _ Hrm. rewrite Hrm. simpl.
    split; [reflexivity | split; [in_trace | intros Hin; break_in]].
  - intros _. simpl.
    split; [in_trace | split; [reflexivity | split; [exact Hfilter | reflexivity]]].
  - intros e Hc. apply includes_spec in Hc. congruence.
Qed.

Lemma gallery_delete_after_row_deletion_witness :
  let w := worldWith (Rejected (mkError "offline")) (Resolved None) (Resolved None) in
  stateOf (Gallery.handleDeleteImage w galleryState 7 managedUrl galleryState)
  = galleryState /\
  Gallery.images
    (stateOf (Gallery.handleDeleteImage sampleWorld galleryState 7 managedUrl galleryState))
  = [].
Proof.
  cbv zeta. split.
  - pose proof (gallery_delete_after_row_deletion
                  (worldWith (Rejected (mkError "offline")) (Resolved None) (Resolved None))
                  galleryState galleryState 7 managedUrl) as H.
    cbv zeta in H. destruct (H eq_refl) as [_ Hthrow].
    destruct (Hthrow (mkError "offline")) as [Hstate _];
      [exists "https://project.supabase.co", "old-1.jpg"; reflexivity
      | reflexivity | exact Hstate].
  - pose proof (gallery_delete_after_row_deletion sampleWorld
                  galleryState galleryState 7 managedUrl) as H.
    cbv zeta in H. destruct (H eq_refl) as [Hok _].
    destruct Hok as [_ [_ [Himg _]]]; [right; exists None; reflexivity|].
    destruct (Gallery.images _) as [|img rest]; [reflexivity|].
    exfalso. destruct (proj1 (Himg img) (or_introl eq_refl)) as [Hin Hid].
    simpl in Hin. destruct Hin as [<- | []]. apply Hid. reflexivity.
Defined.

(** ** Fetching the gallery *)

(** X11. [fetchImages] issues one select on the gallery.  Whenever the
    query settles, [loading] ends false and nothing but [images] and
    [loading] changes.  The list is replaced, by the rows or by the
    empty list when [data] is [null], only when the query resolves
    without error; when it resolves with an error (whatever [data]
    holds) or rejects, the list is kept and the toast 'Failed to fetch
    images' is shown.  While the query never settles, [loading] keeps
    its value. *)
Theorem fetchImages_outcomes
        (rows : selectResponse Gallery.GalleryImage) (g : Gallery.State) :
  let r := GalleryData.fetchImages rows g in
  let kept l b := Gallery.mkState l b (Gallery.uploadDialogOpen g)
                    (Gallery.selectedFile g) (Gallery.previewUrl g)
                    (Gallery.uploading g) in
  hd_error (traceOf r) = Some (DbSelect "gallery") /\
  count isDbCall (traceOf r) = 1%nat /\
  (forall data,
     rows = SelectResolved data None ->
     r = (Returned tt, kept (orEmpty data) false, [DbSelect "gallery"])) /\
  (forall e,
     (exists data, rows = SelectResolved data (Some e)) \/ rows = SelectRejected e ->
     r = (Returned tt, kept (Gallery.images g) false,
          [DbSelect "gallery"; ConsoleError "Error fetching images:" e;
           ToastError "Failed to fetch images"])) /\
  (rows = SelectNeverSettles -> r = (Pending, g, [DbSelect "gallery"])).
Proof.
  cbv zeta. unfold GalleryData.fetchImages, GalleryData.setLoading, Gallery.setImages.
  destruct rows as [data [err|]|err|]; run_monad; unfold awaitSelect; simpl.
  all: split; [reflexivity | split; [reflexivity|]].
  all: split; [intros d Hd; try discriminate Hd; inversion Hd; subst; reflexivity|].
  all: split; [intros e' [[d Hd] | Hd]; try discriminate Hd;
               inversion Hd; subst; reflexivity
              | intros Hd; try discriminate Hd; reflexivity].
Qed.

Lemma fetchImages_outcomes_witness :
  GalleryData.fetchImages (SelectResolved None None) GalleryData.initialState
  = (Returned tt, Gallery.mkState [] false false None None false, [DbSelect "gallery"]) /\
  Gallery.images
    (stateOf (GalleryData.fetchImages
                (SelectResolved (Some [Gallery.mkGalleryImage 1 managedUrl "2024-01-01"])
                   (Some (mkError "timeout")))
                galleryState))
  = Gallery.images galleryState.
Proof.
  split.
  - apply (proj1 (proj2 (proj2 (fetchImages_outcomes (SelectResolved None None)
                                  GalleryData.initialState))) None).
    reflexivity.
  - rewrite (proj1 (proj2 (proj2 (proj2
               (fetchImages_outcomes
                  (SelectResolved
                     (Some [Gallery.mkGalleryImage 1 managedUrl "2024-01-01"])
                     (Some (mkError "timeout")))
                  galleryState)))) (mkError "timeout")).
    + reflexivity.
    + left. eexists. reflexivity.
Defined.

(** X12. [handleCancelUpload] makes no remote call and drops the
    selection and the preview; it revokes the preview URL of the render
    it closes over, when that URL is not empty.  On the next render a
    confirm does nothing at all: a cancelled file is never uploaded. *)
Theorem cancelled_selection_is_not_uploaded
        (w : World) (render g : Gallery.State) :
  let c := Gallery.handleCancelUpload render g in
  let shown := stateOf c in
  outcomeOf c = Returned tt /\
  Gallery.selectedFile shown = None /\
  Gallery.previewUrl shown = None /\
  Gallery.images shown = Gallery.images g /\
  filter isStoreCall (traceOf c) = [] /\
  filter isDbCall (traceOf c) = [] /\
  (forall url,
     In (RevokeObjectURL url) (traceOf c) <->
     Gallery.previewUrl render = Some url /\ url <> EmptyString) /\
  Gallery.handleConfirmUpload w shown shown = (Returned tt, shown, []).
Proof.
  cbv zeta. unfold Gallery.handleCancelUpload, Gallery.setSelectedFile,
    Gallery.setPreviewUrl.
  destruct (Gallery.previewUrl render) as [[|c u]|]; run_monad;
    do 6 (split; [reflexivity|]); (split; [|reflexivity]); intros url; split.
  - intros [].
  - intros [H1 H2]. injection H1 as <-. now contradiction H2.
  - intros [H | []]. injection H as <-. split; [reflexivity | discriminate].
  - intros [H1 _]. injection H1 as <-. left. reflexivity.
  - intros [].
  - intros [H1 _]. discriminate H1.
Qed.

Lemma cancelled_selection_is_not_uploaded_witness :
  In (RevokeObjectURL "blob:preview")
     (traceOf (Gallery.handleCancelUpload galleryState galleryState)).
Proof.
  apply (proj2 (proj1 (proj2 (proj2 (proj2 (proj2 (proj2 (proj2
           (cancelled_selection_is_not_uploaded sampleWorld galleryState
              galleryState)))))))
           "blob:preview")).
  split; [reflexivity | discriminate].
Defined.

(** ** The activities page *)

Ltac run_page :=
  unfold ActivitiesPage.pbind, ActivitiesPage.ptryCatch, ActivitiesPage.ptryFinally,
    ActivitiesPage.pawait, ActivitiesPage.pthrowIf, ActivitiesPage.pemit,
    ActivitiesPage.pmodify, ActivitiesPage.pret, ActivitiesPage.pthrow,
    ActivitiesPage.lift;
  simpl.

(** [handleSubmit], case by case on the answer to its write. *)
Lemma handleSubmit_run (b : ActivitiesPage.Backend) (render s : ActivitiesPage.State) :
  let write := fst (submitWrite b render) in
  let label :=
    match ActivitiesPage.editingActivity render with
    | Some _ => "Activity updated successfully"
    | None => "Activity created successfully"
    end in
  let failed e :=
    (Returned tt, s,
     [ActivitiesPage.PreventDefault; write;
      ActivitiesPage.Toast "Error"
        (JsString.orElse (message e) "An error occurred") true]) in
  ActivitiesPage.handleSubmit b render s =
    match snd (submitWrite b render) with
    | Resolved None =>
        (Returned tt,
         ActivitiesPage.mkState (ActivitiesPage.activities s)
           (ActivitiesPage.categories s) (ActivitiesPage.loading s) false
           (ActivitiesPage.detailDialogOpen s) (ActivitiesPage.selectedActivity s)
           None ActivitiesPage.emptyForm,
         [ActivitiesPage.PreventDefault; write;
          ActivitiesPage.Toast "Success" label false;
          ActivitiesPage.Remote (DbSelect "activities");
          ActivitiesPage.Remote (DbSelect "categories")])
    | Resolved (Some e) => failed e
    | Rejected e => failed e
    | NeverSettles => (Pending, s, [ActivitiesPage.PreventDefault; write])
    end.
Proof.
  cbv zeta. unfold ActivitiesPage.handleSubmit, submitWrite,
    ActivitiesPage.fetchDataDetached, ActivitiesPage.resetForm,
    ActivitiesPage.setDialogOpen, ActivitiesPage.setEditingActivity,
    ActivitiesPage.setFormData.
  destruct (ActivitiesPage.editingActivity render) as [editing|]; cbn [fst snd].
  - destruct (ActivitiesPage.activitiesUpdate b _ _) as [[?|]|?|] eqn:Hw;
      run_page; rewrite ?Hw; reflexivity.
  - destruct (ActivitiesPage.activitiesInsert b _) as [[?|]|?|] eqn:Hw;
      run_page; rewrite ?Hw; reflexivity.
Qed.

(** X13. A submit issues exactly one write: an update of the row being
    edited when the render has one, an insert of one record otherwise,
    in both cases with the record built from the form of the render.
    The only other remote calls it ever makes are the two selects of
    the refresh; it never touches the store and never deletes a row. *)
Theorem submit_writes_exactly_once
        (b : ActivitiesPage.Backend) (render s : ActivitiesPage.State) :
  let r := ActivitiesPage.handleSubmit b render s in
  let data := ActivitiesPage.submitData b (ActivitiesPage.formData render) in
  filter isWrite (pageTrace r) =
    [match ActivitiesPage.editingActivity render with
     | Some editing =>
         ActivitiesPage.ActivitiesUpdate data (ActivitiesPage.act_id editing)
     | None => ActivitiesPage.ActivitiesInsert [data]
     end] /\
  (forall e,
     In (ActivitiesPage.Remote e) (pageTrace r) ->
     e = DbSelect "activities" \/ e = DbSelect "categories").
Proof.
  cbv zeta. rewrite handleSubmit_run. cbv zeta. unfold submitWrite.
  destruct (ActivitiesPage.editingActivity render) as [editing|]; cbn [fst snd];
    match goal with
    | |- context [match ?resp with _ => _ end] => destruct resp as [[?|]|?|]
    end; simpl;
    (split; [reflexivity|]); intros ev Hin;
    repeat match goal with
           | H : _ \/ _ |- _ => destruct H
           | H : False |- _ => destruct H
           | H : ActivitiesPage.Remote _ = ActivitiesPage.Remote _ |- _ =>
               injection H as <-
           | H : @eq ActivitiesPage.pageEvent _ _ |- _ => discriminate H
           end; auto.
Qed.

Lemma submit_writes_exactly_once_witness :
  DbSelect "categories" = DbSelect "activities" \/
  DbSelect "categories" = DbSelect "categories".
Proof.
  apply (proj2 (submit_writes_exactly_once sampleBackend pageState pageState)
           (DbSelect "categories")).
  vm_compute. do 4 right. left. reflexivity.
Defined.

(** X14. When the write of a submit is accepted, the dialog is closed,
    the form is emptied, no row is being edited any more and the lists
    are fetched again.  When the write fails with error [e], nothing of
    the state changes (the dialog stays open with the form as typed) and
    one destructive toast shows the message of [e], or 'An error
    occurred' when the message is empty.  While the write never settles
    the state is untouched. *)
Theorem submit_outcomes
        (b : ActivitiesPage.Backend) (render s : ActivitiesPage.State) :
  let r := ActivitiesPage.handleSubmit b render s in
  let answer := snd (submitWrite b render) in
  (answer = Resolved None ->
   pageOutcome r = Returned tt /\
   pageStateOf r =
     ActivitiesPage.mkState (ActivitiesPage.activities s)
       (ActivitiesPage.categories s) (ActivitiesPage.loading s) false
       (ActivitiesPage.detailDialogOpen s) (ActivitiesPage.selectedActivity s)
       None ActivitiesPage.emptyForm /\
   filter isDestructiveToast (pageTrace r) = [] /\
   In (ActivitiesPage.Remote (DbSelect "activities")) (pageTrace r) /\
   In (ActivitiesPage.Remote (DbSelect "categories")) (pageTrace r)) /\
  (forall e,
     failedWith answer e ->
     pageOutcome r = Returned tt /\
     pageStateOf r = s /\
     filter isDestructiveToast (pageTrace r) =
       [ActivitiesPage.Toast "Error"
          (JsString.orElse (message e) "An error occurred") true] /\
     forall ev, ~ In (ActivitiesPage.Remote ev) (pageTrace r)) /\
  (answer = NeverSettles -> pageOutcome r = Pending /\ pageStateOf r = s).
Proof.
  cbv zeta. rewrite handleSubmit_run. cbv zeta. unfold submitWrite.
  destruct (ActivitiesPage.editingActivity render) as [editing|]; cbn [fst snd];
    match goal with
    | |- context [match ?resp with _ => _ end] => destruct resp as [[err|]|err|]
    end; simpl; (split; [|split]).
  all: first
    [ solve [ intros H; discriminate H ]
    | solve [ intros e [H | H]; discriminate H ]
    | solve [ intros _; do 3 (split; [reflexivity|]); split; in_trace ]
    | solve [ intros _; split; reflexivity ]
    | intros e [H | H]; try discriminate H; injection H as <-;
      do 3 (split; [reflexivity|]);
      intros ev Hin; simpl in Hin; intuition discriminate ].
Qed.

Lemma submit_outcomes_witness :
  let b := backendWith (Resolved None) (Rejected (mkError EmptyString)) in
  filter isDestructiveToast
    (pageTrace (ActivitiesPage.handleSubmit b pageState pageState))
  = [ActivitiesPage.Toast "Error" "An error occurred" true] /\
  ActivitiesPage.dialogOpen
    (pageStateOf (ActivitiesPage.handleSubmit sampleBackend pageState pageState))
  = false.
Proof.
  cbv zeta. split.
  - destruct (proj1 (proj2 (submit_outcomes
                              (backendWith (Resolved None) (Rejected (mkError EmptyString)))
                              pageState pageState)) (mkError EmptyString))
      as [_ [_ [Htoast _]]]; [right; reflexivity | exact Htoast].
  - destruct (proj1 (submit_outcomes sampleBackend pageState pageState))
      as [_ [Hstate _]]; [reflexivity | rewrite Hstate; reflexivity].
Defined.

Lemma ofZ_truthy (n : Z) : JsString.truthy (JsString.ofZ n) = true.
Proof.
  unfold JsString.ofZ. destruct (Z.to_int n) as [d|d]; [|reflexivity].
  destruct d; reflexivity.
Qed.

Lemma orElse_blank (s : string) : JsString.orElse s EmptyString = s.
Proof. now destruct s. Qed.

(** The form that [handleEdit] fills in is sent back as the row it came
    from. *)
Lemma submitData_after_edit (b : ActivitiesPage.Backend) (a : ActivitiesPage.Activity)
      (s : ActivitiesPage.State) :
  (forall n, ActivitiesPage.act_category_id a = Some n ->
             Z.abs n <= 2 ^ 53 /\
             ActivitiesPage.parseInt b (JsString.ofZ n) = ActivitiesPage.Int n) ->
  let blank o := match o with Some x => x | None => EmptyString end in
  ActivitiesPage.submitData b
    (ActivitiesPage.formData (pageStateOf (ActivitiesPage.handleEdit b a s))) =
  ActivitiesPage.mkSubmitData (ActivitiesPage.act_title a)
    (ActivitiesPage.act_description a)
    (option_map ActivitiesPage.Int (ActivitiesPage.act_category_id a))
    (match ActivitiesPage.act_date a with
     | Some d => if JsString.truthy d then Some d else None
     | None => None
     end)
    (blank (ActivitiesPage.act_location a))
    (blank (ActivitiesPage.act_people a))
    (blank (ActivitiesPage.act_image_url a)).
Proof.
  intros Hp. cbv zeta. unfold ActivitiesPage.handleEdit, ActivitiesPage.setEditingActivity,
    ActivitiesPage.setFormData, ActivitiesPage.setDialogOpen.
  run_page. unfold pageStateOf, ActivitiesPage.submitData; simpl.
  unfold ActivitiesPage.orBlank. rewrite ?orElse_blank.
  f_equal.
  - destruct (ActivitiesPage.act_category_id a) as [n|]; [|reflexivity].
    destruct (Hp n eq_refl) as [Hsafe Hparse].
    unfold ActivitiesPage.numberToString.
    assert (Hle : (Z.abs n <=? 2 ^ 53) = true) by (apply Z.leb_le; exact Hsafe).
    rewrite Hle, orElse_blank, ofZ_truthy, Hparse. reflexivity.
  - destruct (ActivitiesPage.act_date a) as [d|]; [|reflexivity].
    rewrite orElse_blank. reflexivity.
  - destruct (ActivitiesPage.act_location a); [apply orElse_blank | reflexivity].
  - destruct (ActivitiesPage.act_people a); [apply orElse_blank | reflexivity].
  - destruct (ActivitiesPage.act_image_url a); [apply orElse_blank | reflexivity].
Qed.

(** X15. Editing an activity and saving it untouched writes exactly one
    update, to the row of that activity.  When the category id, if any,
    is an integer of magnitude at most 2^53 (so that [toString] prints
    every digit) that [parseInt] reads back, the record keeps the title
    and the description, the category as a number and the date ([null]
    when there is none), and holds the empty string, not [null], for a
    missing location, people or image URL. *)
Theorem edit_then_save_round_trip
        (b : ActivitiesPage.Backend) (a : ActivitiesPage.Activity)
        (s : ActivitiesPage.State) :
  let shown := pageStateOf (ActivitiesPage.handleEdit b a s) in
  let r := ActivitiesPage.handleSubmit b shown shown in
  let blank o := match o with Some x => x | None => EmptyString end in
  (forall n, ActivitiesPage.act_category_id a = Some n ->
             Z.abs n <= 2 ^ 53 /\
             ActivitiesPage.parseInt b (JsString.ofZ n) = ActivitiesPage.Int n) ->
  ActivitiesPage.dialogOpen shown = true /\
  filter isWrite (pageTrace r) =
    [ActivitiesPage.ActivitiesUpdate
       (ActivitiesPage.mkSubmitData (ActivitiesPage.act_title a)
          (ActivitiesPage.act_description a)
          (option_map ActivitiesPage.Int (ActivitiesPage.act_category_id a))
          (match ActivitiesPage.act_date a with
           | Some d => if JsString.truthy d then Some d else None
           | None => None
           end)
          (blank (ActivitiesPage.act_location a))
          (blank (ActivitiesPage.act_people a))
          (blank (ActivitiesPage.act_image_url a)))
       (ActivitiesPage.act_id a)].
Proof.
  cbv zeta. intros Hp. split; [reflexivity|].
  rewrite handleSubmit_run. cbv zeta. unfold submitWrite.
  rewrite (submitData_after_edit b a s Hp).
  change (ActivitiesPage.editingActivity
            (pageStateOf (ActivitiesPage.handleEdit b a s))) with (Some a).
  cbn [fst snd].
  match goal with
  | |- context [match ?resp with _ => _ end] => destruct resp as [[?|]|?|]
  end; reflexivity.
Qed.

Lemma edit_then_save_round_trip_witness :
  let shown := pageStateOf (ActivitiesPage.handleEdit sampleBackend sampleActivity pageState) in
  filter isWrite (pageTrace (ActivitiesPage.handleSubmit sampleBackend shown shown)) =
    [ActivitiesPage.ActivitiesUpdate
       (ActivitiesPage.mkSubmitData "Beach clean-up" "<p>Bring gloves</p>"
          (Some (ActivitiesPage.Int 12)) (Some "2024-05-01")
          EmptyString EmptyString managedUrl)
       3].
Proof.
  cbv zeta.
  apply (edit_then_save_round_trip sampleBackend sampleActivity pageState).
  intros n Hn. injection Hn as <-. split; [simpl; lia | reflexivity].
Defined.

(** X16. After [resetForm] a submit is an insert, even when a row was
    being edited before: opening the empty form after an edit never
    updates the edited row.  Left blank, the form is sent with empty
    strings and with [null] for the category and the date. *)
Theorem reset_then_save_inserts
        (b : ActivitiesPage.Backend) (a : ActivitiesPage.Activity)
        (s : ActivitiesPage.State) :
  let edited := pageStateOf (ActivitiesPage.handleEdit b a s) in
  let shown := pageStateOf (ActivitiesPage.resetForm edited) in
  let r := ActivitiesPage.handleSubmit b shown shown in
  ActivitiesPage.editingActivity edited = Some a /\
  ActivitiesPage.editingActivity shown = None /\
  ActivitiesPage.formData shown = ActivitiesPage.emptyForm /\
  filter isWrite (pageTrace r) =
    [ActivitiesPage.ActivitiesInsert
       [ActivitiesPage.mkSubmitData EmptyString EmptyString None None
          EmptyString EmptyString EmptyString]].
Proof.
  cbv zeta. do 3 (split; [reflexivity|]).
  rewrite handleSubmit_run. cbv zeta. unfold submitWrite.
  change (ActivitiesPage.editingActivity
            (pageStateOf (ActivitiesPage.resetForm
                            (pageStateOf (ActivitiesPage.handleEdit b a s)))))
    with (@None ActivitiesPage.Activity).
  change (ActivitiesPage.formData
            (pageStateOf (ActivitiesPage.resetForm
                            (pageStateOf (ActivitiesPage.handleEdit b a s)))))
    with ActivitiesPage.emptyForm.
  cbn [fst snd].
  match goal with
  | |- context [match ?resp with _ => _ end] => destruct resp as [[?|]|?|]
  end; reflexivity.
Qed.

(** [handleDelete], case by case. *)
Lemma handleDelete_run (w : World) (b : ActivitiesPage.Backend)
      (render s : ActivitiesPage.State) (id : Z) :
  let question := "Are you sure you want to delete this activity?" in
  let ask := ActivitiesPage.Confirm question in
  let del := ActivitiesPage.Remote (DbDelete "activities" id) in
  let key := JsString.lastPart (JsString.split "/" (imageToDelete render id)) in
  let rm := ActivitiesPage.Remote (StorageRemove "uploads" [key]) in
  let refresh :=
    [ActivitiesPage.Toast "Success" "Activity deleted successfully" false;
     ActivitiesPage.Remote (DbSelect "activities");
     ActivitiesPage.Remote (DbSelect "categories")] in
  let failed e :=
    (Returned tt, s,
     [ask; del;
      ActivitiesPage.Toast "Error"
        (JsString.orElse (message e) "Failed to delete activity") true]) in
  ActivitiesPage.handleDelete w b render id s =
    if ActivitiesPage.confirmAnswer b question then
      match dbDelete w "activities" id with
      | Resolved None =>
          if JsString.includes storageMarker (imageToDelete render id) then
            match storageRemove w "uploads" [key] with
            | Resolved _ => (Returned tt, s, ask :: del :: rm :: refresh)
            | Rejected e =>
                (Returned tt, s,
                 ask :: del :: rm
                   :: ActivitiesPage.Remote (ConsoleError "Error deleting image:" e)
                   :: refresh)
            | NeverSettles => (Pending, s, [ask; del; rm])
            end
          else (Returned tt, s, ask :: del :: refresh)
      | Resolved (Some e) => failed e
      | Rejected e => failed e
      | NeverSettles => (Pending, s, [ask; del])
      end
    else (Returned tt, s, [ActivitiesPage.Confirm question]).
Proof.
  cbv zeta. unfold ActivitiesPage.handleDelete, ActivitiesPage.fetchDataDetached,
    imageToDelete.
  destruct (ActivitiesPage.confirmAnswer b _); [|reflexivity].
  destruct (dbDelete w "activities" id) as [[?|]|?|] eqn:Hdb;
    run_page; rewrite ?Hdb; simpl; try reflexivity.
  destruct (find _ (ActivitiesPage.activities render)) as [act|]; [|reflexivity].
  destruct (JsString.includes storageMarker
              (ActivitiesPage.orBlank (ActivitiesPage.act_image_url act))) eqn:Hinc.
  - rewrite (includes_marker_truthy _ Hinc).
    rewrite deleteImageFromStorage_run, Hinc. cbv zeta.
    destruct (storageRemove w "uploads" _) as [[?|]|?|]; reflexivity.
  - destruct (JsString.truthy _); [|reflexivity].
    rewrite deleteImageFromStorage_run, Hinc. reflexivity.
Qed.

(** X17. Deleting an activity asks first.  When the user declines,
    nothing else happens.  When the user confirms, the row is deleted
    before anything else; if that fails with error [e] the handler
    stops with one destructive toast (the message of [e], or 'Failed to
    delete activity' when it is empty) and makes no store call.  A store
    remove is made only after the row deletion was accepted, only for an
    activity found in the list of the render whose image URL contains
    the storage path marker, and for the key after its last slash. *)
Theorem activity_row_deleted_before_image
        (w : World) (b : ActivitiesPage.Backend)
        (render s : ActivitiesPage.State) (id : Z) :
  let question := "Are you sure you want to delete this activity?" in
  let r := ActivitiesPage.handleDelete w b render id s in
  let del := ActivitiesPage.Remote (DbDelete "activities" id) in
  (ActivitiesPage.confirmAnswer b question = false ->
   r = (Returned tt, s, [ActivitiesPage.Confirm question])) /\
  (forall e,
     ActivitiesPage.confirmAnswer b question = true ->
     failedWith (dbDelete w "activities" id) e ->
     r = (Returned tt, s,
          [ActivitiesPage.Confirm question; del;
           ActivitiesPage.Toast "Error"
             (JsString.orElse (message e) "Failed to delete activity") true])) /\
  (forall bucket paths,
     In (ActivitiesPage.Remote (StorageRemove bucket paths)) (pageTrace r) ->
     ActivitiesPage.confirmAnswer b question = true /\
     dbDelete w "activities" id = Resolved None /\
     (exists act,
        find (fun act => ActivitiesPage.act_id act =? id)
          (ActivitiesPage.activities render) = Some act /\
        ActivitiesPage.act_image_url act = Some (imageToDelete render id)) /\
     contains storageMarker (imageToDelete render id) /\
     bucket = "uploads" /\
     paths = [JsString.lastPart (JsString.split "/" (imageToDelete render id))] /\
     exists rest,
       pageTrace r =
         ActivitiesPage.Confirm question :: del
           :: ActivitiesPage.Remote (StorageRemove bucket paths) :: rest).
Proof.
  cbv zeta. rewrite handleDelete_run. cbv zeta.
  destruct (ActivitiesPage.confirmAnswer b _).
  - split; [discriminate|]. split.
    + intros e _ [Hf | Hf]; rewrite Hf; reflexivity.
    + intros bucket paths.
      destruct (dbDelete w "activities" id) as [[?|]|?|];
        [| destruct (JsString.includes storageMarker (imageToDelete render id)) eqn:Hinc;
           [destruct (storageRemove w "uploads" _) as [[?|]|?|]|] | |];
        simpl; intros Hin;
        repeat match goal with
               | H : _ \/ _ |- _ => destruct H
               | H : False |- _ => destruct H
               | H : ActivitiesPage.Remote _ = ActivitiesPage.Remote _ |- _ =>
                   injection H as H
               | H : StorageRemove _ _ = StorageRemove _ _ |- _ =>
                   injection H as <- <-
               | H : @eq event _ _ |- _ => discriminate H
               | H : @eq ActivitiesPage.pageEvent _ _ |- _ => discriminate H
               end; subst.
      all: do 2 (split; [reflexivity|]).
      all: (split; [|split; [now apply includes_spec | split; [reflexivity | split;
              [reflexivity | eexists; reflexivity]]]]).
      all: unfold imageToDelete in *;
        destruct (find _ (ActivitiesPage.activities render)) as [act|];
        [| discriminate Hinc];
        exists act; split; [reflexivity|];
        destruct (ActivitiesPage.act_image_url act) as [u|]; [| discriminate Hinc];
        simpl; now rewrite orElse_blank.
  - split; [reflexivity|]. split; [intros e H; discriminate H|].
    intros bucket paths [Hin | []]. discriminate Hin.
Qed.

Lemma activity_row_deleted_before_image_witness :
  let w := worldWith (Resolved None) (Resolved None)
             (Rejected (mkError "foreign key violation")) in
  pageTrace (ActivitiesPage.handleDelete w sampleBackend pageState 3 pageState)
  = [ActivitiesPage.Confirm "Are you sure you want to delete this activity?";
     ActivitiesPage.Remote (DbDelete "activities" 3);
     ActivitiesPage.Toast "Error" "foreign key violation" true].
Proof.
  cbv zeta.
  rewrite (proj1 (proj2 (activity_row_deleted_before_image
                           (worldWith (Resolved None) (Resolved None)
                              (Rejected (mkError "foreign key violation")))
                           sampleBackend pageState pageState 3))
             (mkError "foreign key violation")).
  - reflexivity.
  - reflexivity.
  - right. reflexivity.
Defined.

(** X18. Once the row of an activity is deleted, trouble with its image
    never shows: whether no store call is needed, the remove call
    resolves (with or without an error object) or throws, the handler
    returns with the success toast, no destructive toast, the refresh
    issued as its last two events and the state untouched.  (The
    gallery's [handleDeleteImage] shows its error toast when the remove
    call throws.)  Only a remove call that never settles keeps the
    handler pending. *)
Theorem activity_image_cleanup_is_silent
        (w : World) (b : ActivitiesPage.Backend)
        (render s : ActivitiesPage.State) (id : Z) :
  let question := "Are you sure you want to delete this activity?" in
  let r := ActivitiesPage.handleDelete w b render id s in
  let key := JsString.lastPart (JsString.split "/" (imageToDelete render id)) in
  ActivitiesPage.confirmAnswer b question = true ->
  dbDelete w "activities" id = Resolved None ->
  pageStateOf r = s /\
  filter isDestructiveToast (pageTrace r) = [] /\
  (pageOutcome r = Pending <->
   contains storageMarker (imageToDelete render id) /\
   storageRemove w "uploads" [key] = NeverSettles) /\
  (pageOutcome r <> Pending ->
   pageOutcome r = Returned tt /\
   exists before,
     pageTrace r =
       (before ++
        [ActivitiesPage.Toast "Success" "Activity deleted successfully" false;
         ActivitiesPage.Remote (DbSelect "activities");
         ActivitiesPage.Remote (DbSelect "categories")])%list).
Proof.
  cbv zeta. intros Hyes Hdb. rewrite handleDelete_run. cbv zeta.
  rewrite Hyes, Hdb. rewrite <- includes_spec.
  destruct (JsString.includes storageMarker (imageToDelete render id)).
  - destruct (storageRemove w "uploads" _) as [[err|]|err|]; simpl;
      do 2 (split; [reflexivity|]).
    + split; [split; [discriminate | intros [_ H]; discriminate H]|].
      intros _. split; [reflexivity|]. eexists [_; _; _]. reflexivity.
    + split; [split; [discriminate | intros [_ H]; discriminate H]|].
      intros _. split; [reflexivity|]. eexists [_; _; _]. reflexivity.
    + split; [split; [discriminate | intros [_ H]; discriminate H]|].
      intros _. split; [reflexivity|]. eexists [_; _; _; _]. reflexivity.
    + split; [split; [intros _; split; reflexivity | reflexivity]|].
      intros H. now contradiction H.
  - simpl. do 2 (split; [reflexivity|]).
    split; [split; [discriminate | intros [H _]; discriminate H]|].
    intros _. split; [reflexivity|]. eexists [_; _]. reflexivity.
Qed.

Lemma activity_image_cleanup_is_silent_witness :
  let w := worldWith (Rejected (mkError "offline")) (Resolved None) (Resolved None) in
  filter isDestructiveToast
    (pageTrace (ActivitiesPage.handleDelete w sampleBackend pageState 3 pageState))
  = [] /\
  In (ActivitiesPage.Remote (StorageRemove "uploads" ["old-1.jpg"]))
     (pageTrace (ActivitiesPage.handleDelete w sampleBackend pageState 3 pageState)).
Proof.
  cbv zeta. split.
  - apply (activity_image_cleanup_is_silent
             (worldWith (Rejected (mkError "offline")) (Resolved None) (Resolved None))
             sampleBackend pageState pageState 3); reflexivity.
  - vm_compute. right. right. left. reflexivity.
Defined.

(** X19. [fetchData] issues both selects and then no other remote
    call.  It replaces the two lists together or not at all: both are
    replaced (by the rows, or by the empty list for [null]) when both
    selects resolve without error; when either fails, both lists are
    kept, and the handler, if it returns, shows the one toast 'Failed to
    fetch data'.  Whenever it returns, [loading] is false. *)
Theorem fetchData_all_or_nothing
        (b : ActivitiesPage.Backend) (s : ActivitiesPage.State) :
  let r := ActivitiesPage.fetchData b s in
  (exists rest,
     pageTrace r =
       ActivitiesPage.Remote (DbSelect "activities")
         :: ActivitiesPage.Remote (DbSelect "categories") :: rest /\
     forall e, ~ In (ActivitiesPage.Remote e) rest) /\
  (pageOutcome r <> Pending ->
   pageOutcome r = Returned tt /\ ActivitiesPage.loading (pageStateOf r) = false) /\
  (forall d1 d2,
     ActivitiesPage.activitiesSelect b = SelectResolved d1 None ->
     ActivitiesPage.categoriesSelect b = SelectResolved d2 None ->
     pageOutcome r = Returned tt /\
     ActivitiesPage.activities (pageStateOf r) = orEmpty d1 /\
     ActivitiesPage.categories (pageStateOf r) = orEmpty d2 /\
     filter isDestructiveToast (pageTrace r) = []) /\
  (forall e,
     selectFailedWith (ActivitiesPage.activitiesSelect b) e \/
     selectFailedWith (ActivitiesPage.categoriesSelect b) e ->
     ActivitiesPage.activities (pageStateOf r) = ActivitiesPage.activities s /\
     ActivitiesPage.categories (pageStateOf r) = ActivitiesPage.categories s /\
     (pageOutcome r = Returned tt ->
      filter isDestructiveToast (pageTrace r) =
        [ActivitiesPage.Toast "Error" "Failed to fetch data" true])).
Proof.
  cbv zeta. unfold ActivitiesPage.fetchData, ActivitiesPage.selectBoth,
    ActivitiesPage.setActivities, ActivitiesPage.setCategories,
    ActivitiesPage.setLoading, selectFailedWith.
  destruct (ActivitiesPage.activitiesSelect b) as [d1 [e1|]|e1|];
    destruct (ActivitiesPage.categoriesSelect b) as [d2 [e2|]|e2|];
    run_page.
  all: split;
    [eexists; split; [reflexivity | intros e Hin; simpl in Hin; intuition discriminate]|].
  all: split; [intros H; first [now contradiction H | split; reflexivity]|].
  all: split;
    [intros a c Ha Hc; try discriminate Ha; try discriminate Hc;
     inversion Ha; inversion Hc; subst; repeat split; reflexivity|].
  all: intros e [[[d H] | H] | [[d H] | H]]; try discriminate H;
    (split; [reflexivity | split; [reflexivity|]]);
    intros Ho; first [discriminate Ho | reflexivity].
Qed.

Lemma fetchData_all_or_nothing_witness :
  let b := ActivitiesPage.mkBackend decimalParseInt JsString.ofZ (fun _ => true)
             (fun _ _ => Resolved None) (fun _ => Resolved None)
             (SelectResolved (Some [sampleActivity]) None)
             (SelectResolved None (Some (mkError "timeout"))) in
  ActivitiesPage.activities
    (pageStateOf (ActivitiesPage.fetchData b ActivitiesPage.initialState)) = [] /\
  ActivitiesPage.activities
    (pageStateOf (ActivitiesPage.fetchData sampleBackend ActivitiesPage.initialState))
  = [sampleActivity].
Proof.
  cbv zeta. split.
  - destruct (proj2 (proj2 (proj2
               (fetchData_all_or_nothing
                  (ActivitiesPage.mkBackend decimalParseInt JsString.ofZ (fun _ => true)
                     (fun _ _ => Resolved None) (fun _ => Resolved None)
                     (SelectResolved (Some [sampleActivity]) None)
                     (SelectResolved None (Some (mkError "timeout"))))
                  ActivitiesPage.initialState)))
               (mkError "timeout")) as [Hkept _];
      [right; left; eexists; reflexivity | exact Hkept].
  - destruct (proj1 (proj2 (proj2
               (fetchData_all_or_nothing sampleBackend ActivitiesPage.initialState)))
               (Some [sampleActivity]) (Some sampleCategories) eq_refl eq_refl)
      as [_ [Hrows _]].
    exact Hrows.
Defined.

(** X20. [getCategoryName] never yields an empty label.  It is
    'Uncategorized' when the activity has no category or when no
    category of the render has that id; otherwise it is the title of the
    first category with that id, or 'Uncategorized' when that title is
    empty. *)
Theorem category_name_is_never_empty
        (render : ActivitiesPage.State) (categoryId : option Z) :
  let name := ActivitiesPage.getCategoryName render categoryId in
  JsString.truthy name = true /\
  (categoryId = None -> name = "Uncategorized") /\
  (forall n,
     categoryId = Some n ->
     (forall c, In c (ActivitiesPage.categories render) -> ActivitiesPage.cat_id c <> n) ->
     name = "Uncategorized") /\
  (forall n before c after,
     categoryId = Some n ->
     ActivitiesPage.categories render = (before ++ c :: after)%list ->
     (forall c', In c' before -> ActivitiesPage.cat_id c' <> n) ->
     ActivitiesPage.cat_id c = n ->
     name = JsString.orElse (ActivitiesPage.cat_title c) "Uncategorized").
Proof.
  cbv zeta. unfold ActivitiesPage.getCategoryName. split; [|split; [|split]].
  - destruct categoryId as [n|]; [|reflexivity].
    destruct (find _ _) as [c|]; [|reflexivity].
    destruct (ActivitiesPage.cat_title c); reflexivity.
  - intros ->. reflexivity.
  - intros n -> Hno.
    destruct (find _ _) as [c|] eqn:Hf; [|reflexivity].
    apply find_some in Hf as [Hin Heq]. apply Z.eqb_eq in Heq.
    exfalso. exact (Hno c Hin Heq).
  - intros n before c after -> Hcats Hbefore Hc. rewrite Hcats.
    clear Hcats. induction before as [|x before IH]; simpl.
    + rewrite (proj2 (Z.eqb_eq _ _) Hc). reflexivity.
    + assert (Hx : (ActivitiesPage.cat_id x =? n) = false).
      { apply Z.eqb_neq. apply Hbefore. now left. }
      rewrite Hx. apply IH. intros c' Hin. apply Hbefore. now right.
Qed.

Lemma category_name_is_never_empty_witness :
  ActivitiesPage.getCategoryName pageState (Some 12) = "Environment" /\
  ActivitiesPage.getCategoryName pageState (Some 13) = "Uncategorized" /\
  ActivitiesPage.getCategoryName pageState (Some 99) = "Uncategorized".
Proof.
  pose proof (category_name_is_never_empty pageState (Some 12)) as H12.
  pose proof (category_name_is_never_empty pageState (Some 13)) as H13.
  pose proof (category_name_is_never_empty pageState (Some 99)) as H99.
  cbv zeta in H12, H13, H99.
  destruct H12 as [_ [_ [_ H12]]]. destruct H13 as [_ [_ [_ H13]]].
  destruct H99 as [_ [_ [H99 _]]].
  split; [|split].
  - apply (H12 12 [] (ActivitiesPage.mkCategory 12 "Environment")
             [ActivitiesPage.mkCategory 13 EmptyString]);
      try reflexivity. intros c' [].
  - apply (H13 13 [ActivitiesPage.mkCategory 12 "Environment"]
             (ActivitiesPage.mkCategory 13 EmptyString) []);
      try reflexivity.
    intros c' [<- | []]. discriminate.
  - apply (H99 99 eq_refl).
    intros c [<- | [<- | []]]; discriminate.
Defined.

(** ** From the image field to the row *)

(** X21. A successful [uploadImage] calls [onChange] exactly once, with
    the public URL of the key it uploaded.  The page's callback puts
    that URL into the form of the render it closes over: the other
    fields are those of that render, whatever the state holds by then.
    A submit on the next render then issues one write whose record
    carries that URL as [image_url] and the other fields of that
    render. *)
Theorem uploaded_url_is_what_a_submit_writes
        (w : World) (b : ActivitiesPage.Backend) (value : string) (f : File)
        (fs : ImageUpload.State) (render s : ActivitiesPage.State) :
  let up := ImageUpload.uploadImage w value f fs in
  let url := storagePublicUrl w "uploads" (ImageUpload.uploadKey w f) in
  let shown := pageStateOf (ActivitiesPage.imageChanged render url s) in
  let base := ActivitiesPage.submitData b (ActivitiesPage.formData render) in
  let data :=
    ActivitiesPage.mkSubmitData (ActivitiesPage.sd_title base)
      (ActivitiesPage.sd_description base) (ActivitiesPage.sd_category_id base)
      (ActivitiesPage.sd_date base) (ActivitiesPage.sd_location base)
      (ActivitiesPage.sd_people base) url in
  uploadSucceeded (traceOf up) ->
  filter isOnChange (traceOf up) = [OnChange url] /\
  ImageUpload.preview (stateOf up) = url /\
  ActivitiesPage.image_url (ActivitiesPage.formData shown) = url /\
  ActivitiesPage.title (ActivitiesPage.formData shown)
  = ActivitiesPage.title (ActivitiesPage.formData render) /\
  filter isWrite (pageTrace (ActivitiesPage.handleSubmit b shown shown)) =
    [match ActivitiesPage.editingActivity s with
     | Some editing =>
         ActivitiesPage.ActivitiesUpdate data (ActivitiesPage.act_id editing)
     | None => ActivitiesPage.ActivitiesInsert [data]
     end].
Proof.
  cbv zeta. intros Hok.
  assert (Hup : filter isOnChange (traceOf (ImageUpload.uploadImage w value f fs))
                = [OnChange (storagePublicUrl w "uploads" (ImageUpload.uploadKey w f))] /\
                ImageUpload.preview (stateOf (ImageUpload.uploadImage w value f fs))
                = storagePublicUrl w "uploads" (ImageUpload.uploadKey w f)).
  { revert Hok. rewrite uploadImage_run. cbv zeta. rewrite deleteOldImage_run.
    destruct (JsString.includes storageMarker value); cbv zeta;
      repeat (world_case w; simpl); simpl; try not_succeeded;
      intros _; split; reflexivity. }
  destruct Hup as [Hchange Hpreview].
  split; [exact Hchange|]. split; [exact Hpreview|].
  do 2 (split; [reflexivity|]).
  rewrite handleSubmit_run. cbv zeta. unfold submitWrite.
  change (ActivitiesPage.editingActivity
            (pageStateOf (ActivitiesPage.imageChanged render
                            (storagePublicUrl w "uploads" (ImageUpload.uploadKey w f)) s)))
    with (ActivitiesPage.editingActivity s).
  destruct (ActivitiesPage.editingActivity s) as [editing|]; cbn [fst snd];
    match goal with
    | |- context [match ?resp with _ => _ end] => destruct resp as [[?|]|?|]
    end; reflexivity.
Qed.

Lemma uploaded_url_is_what_a_submit_writes_witness :
  let url :=
    "https://project.supabase.co/storage/v1/object/public/uploads/4fzyo82mvyr-1700000000000.png" in
  let shown := pageStateOf (ActivitiesPage.imageChanged pageState url pageState) in
  filter isWrite (pageTrace (ActivitiesPage.handleSubmit sampleBackend shown shown)) =
    [ActivitiesPage.ActivitiesInsert
       [ActivitiesPage.mkSubmitData EmptyString EmptyString None None
          EmptyString EmptyString url]].
Proof.
  cbv zeta.
  apply (uploaded_url_is_what_a_submit_writes sampleWorld sampleBackend EmptyString
           pngFile fieldState pageState pageState).
  vm_compute. in_trace.
Defined.

(** ** From a gallery upload to its deletion *)

Lemma uint_has_no_slash (d : Decimal.uint) :
  JsString.mem "/" (NilEmpty.string_of_uint d) = false.
Proof. induction d; simpl; auto. Qed.

Lemma ofZ_has_no_slash (n : Z) : JsString.mem "/" (JsString.ofZ n) = false.
Proof.
  unfold JsString.ofZ, NilZero.string_of_int, NilZero.string_of_uint.
  destruct (Z.to_int n) as [d|d]; destruct d; simpl;
    try reflexivity; apply uint_has_no_slash.
Qed.

Lemma gallery_key_has_no_slash (w : World) (f : File) :
  JsString.mem "/" (file_name f) = false ->
  JsString.mem "/" (Gallery.uploadKey w f) = false.
Proof.
  intros Hn. unfold Gallery.uploadKey.
  rewrite !mem_append, ofZ_has_no_slash, Hn. reflexivity.
Qed.

(** X22. An image added through the gallery can be deleted again: when
    the name of the selected file has no slash and the public URL of
    the store is a bucket URL ending in the key, a successful
    [handleConfirmUpload] inserts that URL, and [handleDeleteImage] on a
    row holding it, once the row deletion is accepted, asks the store to
    remove exactly the key that was uploaded. *)
Theorem gallery_upload_can_be_deleted
        (w : World) (render g shown s : Gallery.State) (f : File)
        (base : string) (id : Z) :
  let key := Gallery.uploadKey w f in
  let url := base ++ storageMarker ++ key in
  let r := Gallery.handleConfirmUpload w render g in
  let d := Gallery.handleDeleteImage w shown id url s in
  Gallery.selectedFile render = Some f ->
  JsString.mem "/" (file_name f) = false ->
  storagePublicUrl w "uploads" key = url ->
  uploadSucceeded (traceOf r) ->
  dbDelete w "gallery" id = Resolved None ->
  (exists body, filter isStorageUpload (traceOf r) = [StorageUpload "uploads" key body None]) /\
  In (DbInsert "gallery" url) (traceOf r) /\
  filter isStoreCall (traceOf d) = [StorageRemove "uploads" [key]].
Proof.
  cbv zeta. intros Hsel Hname Hurl Hok Hdb.
  pose proof (gallery_key_has_no_slash w f Hname) as Hkey.
  split; [|split].
  - revert Hok. rewrite (handleConfirmUpload_run w render g f Hsel). cbv zeta.
    repeat (world_case w; simpl); simpl;
      try solve [intros Hok; exfalso; revert Hok; not_succeeded].
    intros _. eexists. unfold revoked.
    destruct (Gallery.previewUrl render) as [u|]; [destruct (JsString.truthy u)|];
      reflexivity.
  - revert Hok. rewrite (handleConfirmUpload_run w render g f Hsel). cbv zeta.
    rewrite Hurl.
    repeat (world_case w; simpl); simpl;
      try solve [intros Hok; exfalso; revert Hok; not_succeeded].
    intros _. in_trace.
  - rewrite handleDeleteImage_run. cbv zeta. rewrite Hdb, contains_marker_append.
    destruct (marker_key_url base (Gallery.uploadKey w f)) as [a ->].
    rewrite (lastPart_split_append "/" a _ Hkey).
    destruct (storageRemove w "uploads" _) as [[?|]|?|]; reflexivity.
Qed.

Lemma gallery_upload_can_be_deleted_witness :
  filter isStoreCall
    (traceOf (Gallery.handleDeleteImage sampleWorld galleryState 8
                ("https://project.supabase.co" ++ storageMarker
                   ++ Gallery.uploadKey sampleWorld pngFile)
                galleryState))
  = [StorageRemove "uploads" ["1700000000000-photo.png"]].
Proof.
  apply (gallery_upload_can_be_deleted sampleWorld galleryState galleryState
           galleryState galleryState pngFile "https://project.supabase.co" 8).
  - reflexivity.
  - reflexivity.
  - reflexivity.
  - vm_compute. in_trace.
  - reflexivity.
Defined.
